(** * vscode-dired: the entry codec and the listing renderer

    A shallow embedding of [src/fileItem.ts] (class [FileItem]) and of the
    buffer-handling methods of [src/provider.ts] (class [DiredProvider]),
    followed by the properties of the line format that the specification
    states about them.

    Conventions of the embedding:
    - a JavaScript string is a [string]; a character stands for one code
      unit, and all positional operations ([length], [substring]) count
      code units exactly as the runtime does;
    - a JavaScript number is a [JS.number]: [NaN] or an integer.  The
      program only ever builds numbers from [parseInt] of at most eight
      characters, from [fs.Stats] and from [Date] getters, all of which are
      integer-valued;
    - [string | undefined] is [option string];
    - a computation that may loop for ever returns an [option] ([None]
      when the loop does not end); a command of the provider returns a
      [result] that records a normal end, a thrown exception, or
      divergence. *)

From Stdlib Require Import ZArith NArith List String Ascii Bool Lia.
Import ListNotations.

Open Scope string_scope.

(** ** The JavaScript built-ins the program calls *)

Module JS.

Inductive number : Type :=
| NaN
| Int (z : Z).

(** [a + b] on numbers. *)
Definition add (a b : number) : number :=
  match a, b with
  | Int x, Int y => Int (x + y)
  | _, _ => NaN
  end.

(** [String.prototype.substring(start, end)]: both indices are clamped
    to the length and swapped when [start > end]. *)
Fixpoint drop (n : nat) (s : string) : string :=
  match n, s with
  | O, _ => s
  | S _, EmptyString => EmptyString
  | S n', String _ s' => drop n' s'
  end.

Fixpoint take (n : nat) (s : string) : string :=
  match n, s with
  | O, _ => EmptyString
  | S _, EmptyString => EmptyString
  | S n', String c s' => String c (take n' s')
  end.

Definition substring (s : string) (start finish : nat) : string :=
  let len := length s in
  let a := Nat.min start len in
  let b := Nat.min finish len in
  take (Nat.max a b - Nat.min a b) (drop (Nat.min a b) s).

(** [s.substring(start)]: the end index defaults to the length. *)
Definition substringFrom (s : string) (start : nat) : string :=
  substring s start (length s).

(** [Number::toString] in radix 10, for [NaN] and for integers (digits
    are written out in full, which is what the runtime does below
    [10^21]). *)
Definition digit_char (d : N) : ascii := ascii_of_N (48 + d).

Fixpoint digits_fuel (fuel : nat) (n : N) : string :=
  match fuel with
  | O => EmptyString
  | S fuel' =>
      if (n <? 10)%N then String (digit_char n) EmptyString
      else digits_fuel fuel' (n / 10) ++ String (digit_char (n mod 10)) EmptyString
  end.

Definition digits (n : N) : string :=
  digits_fuel (S (N.to_nat (N.log2 n))) n.

Definition toString (x : number) : string :=
  match x with
  | NaN => "NaN"
  | Int z => if (z <? 0)%Z then "-" ++ digits (Z.abs_N z) else digits (Z.to_N z)
  end.

(** [parseInt(string)] with no radix argument: leading white space is
    skipped, then an optional sign, then an optional [0x]/[0X] prefix
    (radix 16, otherwise 10), then the longest run of digits; no digit
    at all gives [NaN]. *)
Definition isWhiteSpace (c : ascii) : bool :=
  let n := N_of_ascii c in
  ((9 <=? n) && (n <=? 13) || (n =? 32) || (n =? 160))%N.

Fixpoint trimStart (s : string) : string :=
  match s with
  | EmptyString => EmptyString
  | String c s' => if isWhiteSpace c then trimStart s' else s
  end.

Definition digit_value (radix : N) (c : ascii) : option N :=
  let n := N_of_ascii c in
  let v :=
    if ((48 <=? n) && (n <=? 57))%N then Some (n - 48)%N
    else if ((97 <=? n) && (n <=? 122))%N then Some (n - 87)%N
    else if ((65 <=? n) && (n <=? 90))%N then Some (n - 55)%N
    else None in
  match v with
  | Some d => if (d <? radix)%N then Some d else None
  | None => None
  end.

(** The value of the longest prefix of [s] made of digits; [acc] is the
    value read so far, [None] while no digit has been read. *)
Fixpoint parse_digits (radix : N) (s : string) (acc : option N) : option N :=
  match s with
  | EmptyString => acc
  | String c s' =>
      match digit_value radix c with
      | Some d =>
          let a := match acc with Some a => a | None => 0%N end in
          parse_digits radix s' (Some (radix * a + d)%N)
      | None => acc
      end
  end.

Definition strip_sign (s : string) : Z * string :=
  match s with
  | String "-" r => ((-1)%Z, r)
  | String "+" r => (1%Z, r)
  | _ => (1%Z, s)
  end.

Definition strip_prefix (s : string) : N * string :=
  match s with
  | String "0" (String "x" r) => (16%N, r)
  | String "0" (String "X" r) => (16%N, r)
  | _ => (10%N, s)
  end.

Definition parseInt (s : string) : number :=
  let '(sign, s1) := strip_sign (trimStart s) in
  let '(radix, s2) := strip_prefix s1 in
  match parse_digits radix s2 None with
  | None => NaN
  | Some v => Int (sign * Z.of_N v)
  end.

(** [s.startsWith(t)], [s.indexOf(t)] ([None] for [-1]) and
    [s.endsWith(t)]. *)
Fixpoint startsWith (s t : string) : bool :=
  match t, s with
  | EmptyString, _ => true
  | String _ _, EmptyString => false
  | String b t', String a s' => Ascii.eqb a b && startsWith s' t'
  end.

Fixpoint indexOf (s t : string) : option nat :=
  if startsWith s t then Some O
  else match s with
       | EmptyString => None
       | String _ s' => option_map S (indexOf s' t)
       end.

Definition endsWith (s t : string) : bool :=
  (length t <=? length s)%nat && (drop (length s - length t) s =? t).

(** [array.join(separator)] *)
Fixpoint join (separator : string) (l : list string) : string :=
  match l with
  | nil => EmptyString
  | cons x nil => x
  | cons x rest => x ++ separator ++ join separator rest
  end.

End JS.

(** ** [src/fileItem.ts] *)

(** What the file imports and this development takes as given: the
    [fs.Stats] object with the fields the code reads, a [Date] through the
    values its local-time getters return, the [stat-mode] wrapper [Mode],
    and the uid/gid resolver of [./idResolver]. *)

Record Date : Type := mkDate {
  getMonth : JS.number;      (* 0..11 *)
  getDate : JS.number;
  getHours : JS.number;
  getMinutes : JS.number
}.

Record Stats : Type := mkStats {
  stats_isDirectory : bool;  (* [stats.isDirectory()] *)
  uid : JS.number;
  gid : JS.number;
  size : JS.number;
  atime : Date;
  mtime : Date;
  ctime : Date;
  birthtime : Date
}.

Record Mode : Type := mkMode {
  mode_isDirectory : bool;
  mode_isFile : bool;
  mode_toString : string
}.

Record IDResolver : Type := mkIDResolver {
  username : JS.number -> option string;
  groupname : JS.number -> option string
}.

Module FileItem.

Record FileItem : Type := mkFileItem {
  _dirname : string;
  _filename : string;
  _isDirectory : bool;
  _isFile : bool;
  _username : option string;
  _groupname : option string;
  _size : JS.number;
  _month : JS.number;
  _day : JS.number;
  _hour : JS.number;
  _min : JS.number;
  _modeStr : option string;
  _selected : bool
}.

Section Create.
(** [new Mode(stats)] and the static [FileItem._resolver]. *)
Variable new_Mode : Stats -> Mode.
Variable _resolver : IDResolver.

Definition create (dir filename : string) (stats : Stats) : FileItem :=
  let mode := new_Mode stats in
  mkFileItem
    dir
    filename
    (mode_isDirectory mode)
    (mode_isFile mode)
    (username _resolver (uid stats))
    (groupname _resolver (gid stats))
    (size stats)
    (JS.add (getMonth (ctime stats)) (JS.Int 1))
    (getDate (ctime stats))
    (getHours (ctime stats))
    (getMinutes (ctime stats))
    (Some (mode_toString mode))
    false.
End Create.

Definition select (value : bool) (this : FileItem) : FileItem :=
  mkFileItem (_dirname this) (_filename this) (_isDirectory this) (_isFile this)
    (_username this) (_groupname this) (_size this) (_month this) (_day this)
    (_hour this) (_min this) (_modeStr this) value.

Definition fileName (this : FileItem) : string := _filename this.

(** [x + ""] and [`${x}`] for a [string | undefined]. *)
Definition str (x : option string) : string :=
  match x with
  | Some s => s
  | None => "undefined"
  end.

(** [while (s.length < size) s = p + s;]  Each turn of the loop with a
    non-empty [p] makes [s] longer, so [size] turns are enough whenever
    the loop ends at all; [None] is the loop that never ends. *)
Fixpoint pad_while (fuel : nat) (s : string) (size : nat) (p : string) : option string :=
  if (length s <? size)%nat then
    match fuel with
    | O => None
    | S fuel' => pad_while fuel' (p ++ s) size p
    end
  else Some s.

Definition pad (num : JS.number) (size : nat) (p : string) : option string :=
  let s := JS.toString num ++ "" in
  pad_while size s size p.

Definition bind {A B : Type} (x : option A) (k : A -> option B) : option B :=
  match x with
  | Some a => k a
  | None => None
  end.

Notation "x <- e ;; k" := (bind e (fun x => k))
  (at level 61, e at next level, right associativity).

Definition line (this : FileItem) : option string :=
  let u := JS.substring (str (_username this) ++ "        ") 0 8 in
  let g := JS.substring (str (_groupname this) ++ "        ") 0 8 in
  size <- pad (_size this) 8 " " ;;
  month <- pad (_month this) 2 "0" ;;
  day <- pad (_day this) 2 "0" ;;
  hour <- pad (_hour this) 2 "0" ;;
  min <- pad (_min this) 2 "0" ;;
  let se := if _selected this then "*" else " " in
  let filename := if _isDirectory this then _filename this ++ "/" else _filename this in
  Some (se ++ " " ++ str (_modeStr this) ++ " " ++ u ++ " " ++ g ++ " " ++ size ++ " "
           ++ month ++ " " ++ day ++ " " ++ hour ++ ":" ++ min ++ " " ++ filename).

Definition parseLine (dir : string) (line : string) : FileItem :=
  let filename := JS.substringFrom line 52 in
  let username := JS.substring line 13 (13 + 8) in
  let groupname := JS.substring line 22 (22 + 8) in
  let size := JS.parseInt (JS.substring line 31 (31 + 8)) in
  let month := JS.parseInt (JS.substring line 40 (40 + 2)) in
  let day := JS.parseInt (JS.substring line 43 (43 + 2)) in
  let hour := JS.parseInt (JS.substring line 46 (46 + 2)) in
  let min := JS.parseInt (JS.substring line 49 (49 + 2)) in
  let modeStr := JS.substring line 2 (2 + 10) in
  let isDirectory := JS.substring modeStr 0 (0 + 1) =? "d" in
  let isFile := JS.substring modeStr 0 1 =? "-" in
  let isSelected := JS.substring line 0 1 =? "*" in
  mkFileItem
    dir
    filename
    isDirectory
    isFile
    (Some username)
    (Some groupname)
    size
    month
    day
    hour
    min
    (Some modeStr)
    isSelected.

End FileItem.

Import FileItem.

(** ** [src/provider.ts] *)

(** The part of the editor API the provider reads.  A document always has
    at least one line, and [at.document] is always defined, so the
    [if (!doc)] guards of the source have no counterpart here. *)

Module vscode.

Record Position : Type := mkPosition {
  line : nat;
  character : nat
}.

Record Selection : Type := mkSelection {
  start : Position;
  end_ : Position;
  active : Position
}.

(** [selection.isEmpty]: start and end are the same position. *)
Definition isEmpty (s : Selection) : bool :=
  ((line (start s) =? line (end_ s)) && (character (start s) =? character (end_ s)))%nat.

Record TextDocument : Type := mkTextDocument {
  firstLine : string;
  moreLines : list string
}.

Definition lines (doc : TextDocument) : list string :=
  firstLine doc :: moreLines doc.

Definition lineCount (doc : TextDocument) : nat :=
  List.length (lines doc).

Record TextEditor : Type := mkTextEditor {
  document : TextDocument;
  selection : Selection
}.

(** [new vscode.Range(startLine, startCharacter, endLine, endCharacter)] *)
Record Range : Type := mkRange {
  startLine : nat;
  startCharacter : nat;
  endLine : nat;
  endCharacter : nat
}.

End vscode.

(** Exceptions: the [TypeError] of a property read on [undefined], and the
    errors of the file system, which carry their description. *)
Inductive exn : Type :=
| TypeError
| FsError (description : string).

(** [`${err}`] *)
Definition exn_str (err : exn) : string :=
  match err with
  | TypeError => "TypeError: Cannot read properties of undefined (reading 'substring')"
  | FsError description => "Error: " ++ description
  end.

(** The synchronous calls of [fs] that the provider makes. *)
Record FileSystem : Type := mkFileSystem {
  readdirSync : string -> exn + list string;
  statSync : string -> exn + Stats;
  lstatSync : string -> exn + Stats
}.

(** What a method leaves behind for the editor to see. *)
Inductive effect : Type :=
| showErrorMessage (message : string)
| executeCommand_cursorMove_down
| onDidChange_fire.

(** How a method ends: it returns [a], or throws [e], in both cases
    leaving the state [s]; or it never ends. *)
Inductive result (A S : Type) : Type :=
| Returned (a : A) (s : S)
| Threw (e : exn) (s : S)
| Diverges.

Arguments Returned {A S} a s.
Arguments Threw {A S} e s.
Arguments Diverges {A S}.

(** [buffers[i] = x] for an index inside the array. *)
Fixpoint assign (i : nat) (x : string) (buffers : list string) : list string :=
  match buffers, i with
  | [], _ => []
  | _ :: rest, O => x :: rest
  | b :: rest, S i' => b :: assign i' x rest
  end.

(** [files.map((f) => f.line())] *)
Fixpoint map_line (files : list FileItem) : option (list string) :=
  match files with
  | [] => Some []
  | f :: rest =>
      match FileItem.line f, map_line rest with
      | Some l, Some ls => Some (l :: ls)
      | _, _ => None
      end
  end.

Module DiredProvider.

Record DiredProvider : Type := mkDiredProvider {
  _fixed_window : bool;
  _show_dot_files : bool;
  _buffers : list string
}.

Definition set_buffers (buffers : list string) (this : DiredProvider) : DiredProvider :=
  mkDiredProvider (_fixed_window this) (_show_dot_files this) buffers.

(** [get dirname()] *)
Definition dirname (activeTextEditor : option vscode.TextEditor) : option string :=
  match activeTextEditor with
  | None => None
  | Some at_ =>
      let doc := vscode.document at_ in
      let line0 := vscode.firstLine doc in
      Some (JS.substring line0 0 (length line0 - 1))
  end.

(** The loop [for (let i = start; i < end; i++)] of [selectFiles], with
    [n] turns left to run from index [i].  Reading [this._buffers[i]] past
    the end gives [undefined], on which [parseLine] throws. *)
Fixpoint selectRange_loop (dir : string) (value allowSelectDot : bool)
    (n i : nat) (buffers : list string) : result unit (list string) :=
  match n with
  | O => Returned tt buffers
  | S n' =>
      match nth_error buffers i with
      | None => Threw TypeError buffers
      | Some text =>
          let f := parseLine dir text in
          if ((fileName f =? ".") || (fileName f =? "..")) && negb allowSelectDot
          then selectRange_loop dir value allowSelectDot n' (S i) buffers
          else
            match FileItem.line (FileItem.select value f) with
            | None => Diverges
            | Some l => selectRange_loop dir value allowSelectDot n' (S i) (assign i l buffers)
            end
      end
  end.

(** Lines 311-320 of [selectFiles] as a function of the buffer and of the
    range: the specification's [selectRange]. *)
Definition selectRange (dir : string) (lines : list string) (start end_ : nat)
    (value allowDotEntries : bool) : result unit (list string) :=
  selectRange_loop dir value allowDotEntries (end_ - start) start lines.

Definition selectFiles (activeTextEditor : option vscode.TextEditor) (value : bool)
    (this : DiredProvider) : result unit (DiredProvider * list effect) :=
  match dirname activeTextEditor with
  | None => Returned tt (this, [])
  | Some dir =>
      if dir =? "" then Returned tt (this, []) else
      match activeTextEditor with
      | None => Returned tt (this, [])
      | Some at_ =>
          let doc := vscode.document at_ in
          let buffers := vscode.lines doc in
          let sel := vscode.selection at_ in
          let '(start, end_, allowSelectDot, log) :=
            if vscode.isEmpty sel then
              let cursor := vscode.active sel in
              if (vscode.line cursor =? 0)%nat
              then (1, vscode.lineCount doc, false, [])
              else (vscode.line cursor, vscode.line cursor + 1, true,
                    [executeCommand_cursorMove_down])
            else (vscode.line (vscode.start sel), vscode.line (vscode.end_ sel), false, []) in
          match selectRange dir buffers start end_ value allowSelectDot with
          | Returned _ buffers' =>
              Returned tt (set_buffers buffers' this, (log ++ [onDidChange_fire])%list)
          | Threw e buffers' => Threw e (set_buffers buffers' this, log)
          | Diverges => Diverges
          end
      end
  end.

Definition select (activeTextEditor : option vscode.TextEditor) (this : DiredProvider) :=
  selectFiles activeTextEditor true this.

Definition unselect (activeTextEditor : option vscode.TextEditor) (this : DiredProvider) :=
  selectFiles activeTextEditor false this.

Section Host.
(** The host: the file system, [path.join], [new Mode(stats)] and the
    id resolver. *)
Variable fs : FileSystem.
Variable path_join : string -> string -> string.
Variable new_Mode : Stats -> Mode.
Variable _resolver : IDResolver.

(** The callback of [files.map] in [readDir]: the item, or [null] and a
    message when [statSync] throws. *)
Definition readDir_stat (dirname filename : string) : option FileItem * list effect :=
  let p := path_join dirname filename in
  match statSync fs p with
  | inr stat => (Some (FileItem.create new_Mode _resolver dirname filename stat), [])
  | inl err =>
      (None, [showErrorMessage ("Could not get stat of " ++ p ++ ": " ++ exn_str err)])
  end.

(** The callback of [.filter] in [readDir]. *)
Definition readDir_keep (this : DiredProvider) (fileItem : option FileItem) : bool :=
  match fileItem with
  | Some fileItem =>
      let filename := fileName fileItem in
      if (filename =? "..") || (filename =? ".") then false
      else if _show_dot_files this then true
      else negb (JS.substring filename 0 1 =? ".")
  | None => false
  end.

(** The cast [<FileItem[]>] of an array that holds no [null] any more. *)
Definition items (l : list (option FileItem)) : list FileItem :=
  flat_map (fun o => match o with Some f => [f] | None => [] end) l.

Definition readDir (this : DiredProvider) (dirname : string)
    : result (list FileItem) (list effect) :=
  match readdirSync fs dirname with
  | inl err => Threw err []
  | inr names =>
      let files := (["."; ".."] ++ names)%list in
      let mapped := map (readDir_stat dirname) files in
      Returned (items (filter (readDir_keep this) (map fst mapped)))
               (List.concat (map snd mapped))
  end.

Definition createBuffer (this : DiredProvider) (dirname : string)
    : result (list string) (DiredProvider * list effect) :=
  let finish (files : list FileItem) (log : list effect) :=
    match map_line files with
    | None => Diverges
    | Some ls =>
        let buffers := ((dirname ++ ":")%string :: ls) in
        Returned buffers (set_buffers buffers this, log)
    end in
  match lstatSync fs dirname with
  | inl err => Threw err (this, [])
  | inr st =>
      if stats_isDirectory st then
        match readDir this dirname with
        | Returned files log => finish files log
        | Threw err log =>
            finish [] (log ++ [showErrorMessage
                                 ("Could not read " ++ dirname ++ ": " ++ exn_str err)])%list
        | Diverges => Diverges
        end
      else finish [] []
  end.

End Host.

(** [render()]: the text of the document, which the promise resolves
    to. *)
Definition render (this : DiredProvider) : string :=
  JS.join (String "010" EmptyString) (_buffers this).

(** What [getFile] gives: [null], an entry, or the error that [lineAt]
    throws for a line outside the document. *)
Inductive found : Type :=
| Null
| Item (f : FileItem)
| IllegalLine.

Definition getFile (activeTextEditor : option vscode.TextEditor) : found :=
  match activeTextEditor with
  | None => Null
  | Some at_ =>
      let cursor := vscode.active (vscode.selection at_) in
      if (vscode.line cursor <? 1)%nat then Null
      else
        match nth_error (vscode.lines (vscode.document at_)) (vscode.line cursor) with
        | None => IllegalLine
        | Some lineText =>
            match dirname activeTextEditor with
            | None => Null
            | Some dir => if dir =? "" then Null else Item (parseLine dir lineText)
            end
        end
  end.

(** The loop of [openUpDir] over [this._buffers], from [index] on: the
    range on the first line that ends with [target], if there is one. *)
Fixpoint openUpDir_search (target : string) (index : nat) (buffers : list string)
    : option vscode.Range :=
  match buffers with
  | [] => None
  | buffer :: rest =>
      if JS.endsWith buffer target then
        let pos := match JS.indexOf buffer target with
                   | Some i => i + 1
                   | None => 0
                   end in
        Some (vscode.mkRange index pos index pos)
      else openUpDir_search target (S index) rest
  end.

Section Commands.
(** The host, with [path.basename] besides. *)
Variable fs : FileSystem.
Variable path_join : string -> string -> string.
Variable path_basename : string -> string.
Variable new_Mode : Stats -> Mode.
Variable _resolver : IDResolver.

(** [reload()] up to the end of the call.  The buffer is rebuilt at once,
    in the executor of the promise; the value is [true] when the promise is
    resolved, so that [onDidChange] fires in a later turn, and [false]
    when nothing was started or the promise is rejected, which nobody
    handles. *)
Definition reload_call (activeTextEditor : option vscode.TextEditor)
    (this : DiredProvider) : result bool (DiredProvider * list effect) :=
  match dirname activeTextEditor with
  | None => Returned false (this, [])
  | Some dir =>
      if dir =? "" then Returned false (this, []) else
      match createBuffer fs path_join new_Mode _resolver this dir with
      | Returned _ s => Returned true s
      | Threw _ s => Returned false s
      | Diverges => Diverges
      end
  end.

(** [reload()] with the turn in which [onDidChange] fires. *)
Definition reload (activeTextEditor : option vscode.TextEditor)
    (this : DiredProvider) : result unit (DiredProvider * list effect) :=
  match reload_call activeTextEditor this with
  | Returned fires (this', log) =>
      Returned tt (this', (log ++ if fires then [onDidChange_fire] else [])%list)
  | Threw e s => Threw e s
  | Diverges => Diverges
  end.

Definition toggleDotFiles (activeTextEditor : option vscode.TextEditor)
    (this : DiredProvider) : result unit (DiredProvider * list effect) :=
  reload activeTextEditor
    (mkDiredProvider (_fixed_window this) (negb (_show_dot_files this)) (_buffers this)).

(** [openUpDir(path, basename)]: the buffer of [path] is built, and the
    value is the range given to [showTextDocument].  The entry made to get
    the URI is a directory, whose URI is always defined.  The lines are
    searched once the document is open; no other command is taken to run
    in between. *)
Definition openUpDir (this : DiredProvider) (path basename : string)
    : result vscode.Range (DiredProvider * list effect) :=
  match createBuffer fs path_join new_Mode _resolver this path with
  | Returned _ (this', log) =>
      let range :=
        match openUpDir_search (" " ++ basename ++ "/") 0 (_buffers this') with
        | Some range => range
        | None => vscode.mkRange 3 52 3 52
        end in
      Returned range (this', log)
  | Threw e s => Threw e s
  | Diverges => Diverges
  end.

(** [goUpDir()]: [None] when it returns at once. *)
Definition goUpDir (activeTextEditor : option vscode.TextEditor) (this : DiredProvider)
    : result (option vscode.Range) (DiredProvider * list effect) :=
  match dirname activeTextEditor with
  | None => Returned None (this, [])
  | Some dir =>
      if (dir =? "") || (dir =? "/") then Returned None (this, []) else
      let basename := path_basename dir in
      let p := path_join dir ".." in
      match openUpDir this p basename with
      | Returned range s => Returned (Some range) s
      | Threw e s => Threw e s
      | Diverges => Diverges
      end
  end.

End Commands.

(** The calls of [delete()]: besides those of the editor, the removal of
    a file and the information message. *)
Inductive call : Type :=
| fs_unlinkSync (path : string)
| showInformationMessage (message : string)
| editor_call (e : effect).

(** What [delete()] can throw: the exception of [unlinkSync], or the
    error of [lineAt]. *)
Inductive failure : Type :=
| Exception (e : exn)
| IllegalLineError.

Inductive completion (S : Type) : Type :=
| Finished (s : S)
| Raised (e : failure) (s : S)
| Unending.

Arguments Finished {S} s.
Arguments Raised {S} e s.
Arguments Unending {S}.

(** [delete()].  [unlinkSync] gives the file system without the file, or
    throws; the buffer is then rebuilt from the new file system. *)
Definition delete (fs : FileSystem) (unlinkSync : string -> exn + FileSystem)
    (path_join : string -> string -> string)
    (new_Mode : Stats -> Mode) (_resolver : IDResolver)
    (activeTextEditor : option vscode.TextEditor) (this : DiredProvider)
    : completion (FileSystem * DiredProvider * list call) :=
  match getFile activeTextEditor with
  | IllegalLine => Raised IllegalLineError (fs, this, [])
  | Null => Finished (fs, this, [])
  | Item f =>
      match dirname activeTextEditor with
      | None => Finished (fs, this, [])
      | Some dir =>
          if dir =? "" then Finished (fs, this, []) else
          let n := path_join dir (fileName f) in
          match unlinkSync n with
          | inl err => Raised (Exception err) (fs, this, [fs_unlinkSync n])
          | inr fs' =>
              match reload_call fs' path_join new_Mode _resolver activeTextEditor this with
              | Returned fires (this', log) =>
                  Finished
                    (fs', this',
                     (fs_unlinkSync n :: map editor_call log
                        ++ [showInformationMessage (n ++ " was deleted")]
                        ++ (if fires then [editor_call onDidChange_fire] else []))%list)
              | Threw e (this', log) =>
                  Raised (Exception e) (fs', this', (fs_unlinkSync n :: map editor_call log)%list)
              | Diverges => Unending
              end
          end
      end
  end.

End DiredProvider.

Import DiredProvider.

(** ** Vocabulary of the specification *)

(** [n] copies of the character [c]. *)
Fixpoint replicate (n : nat) (c : ascii) : string :=
  match n with
  | O => EmptyString
  | S n' => String c (replicate n' c)
  end.

(** An eight-column field holding a name: the name followed by spaces when
    it is shorter, its first eight characters when it is longer. *)
Definition column8 (name : string) : string :=
  if (length name <=? 8)%nat then name ++ replicate (8 - length name) " "
  else JS.take 8 name.

(** A numeric field of [width] columns padded on the left with [c]; a
    longer numeral is kept whole. *)
Definition right_aligned (width : nat) (c : ascii) (numeral : string) : string :=
  replicate (width - length numeral) c ++ numeral.

(** Every character is a decimal digit. *)
Fixpoint all_digits (s : string) : Prop :=
  match s with
  | EmptyString => True
  | String c s' => JS.digit_value 10 c <> None /\ all_digits s'
  end.

(** The name as the line shows it. *)
Definition rendered_name (E : FileItem) : string :=
  if _isDirectory E then _filename E ++ "/" else _filename E.

(** An integer field within [lo, hi]. *)
Definition int_between (lo hi : Z) (x : JS.number) : Prop :=
  exists z, x = JS.Int z /\ (lo <= z <= hi)%Z.

(** Owner and group are defined. *)
Definition names_defined (E : FileItem) : Prop :=
  _username E <> None /\ _groupname E <> None.

(** The mode string is defined and has ten characters. *)
Definition mode_has_ten (E : FileItem) : Prop :=
  _modeStr E <> None /\ length (str (_modeStr E)) = 10.

(** The first character of the mode string tells the kind of the entry. *)
Definition kind_agrees (E : FileItem) : Prop :=
  _isDirectory E = (JS.substring (str (_modeStr E)) 0 1 =? "d") /\
  _isFile E = (JS.substring (str (_modeStr E)) 0 1 =? "-").

(** The size is a non-negative integer. *)
Definition size_natural (E : FileItem) : Prop :=
  exists z, _size E = JS.Int z /\ (0 <= z)%Z.

(** Month, day, hour and minute are in their ranges. *)
Definition times_in_range (E : FileItem) : Prop :=
  int_between 1 12 (_month E) /\ int_between 1 31 (_day E) /\
  int_between 0 23 (_hour E) /\ int_between 0 59 (_min E).

(** A valid entry in the sense of the data model. *)
Record valid (E : FileItem) : Prop := mkValid {
  valid_names : names_defined E;
  valid_mode : mode_has_ten E;
  valid_kind : kind_agrees E;
  valid_size : size_natural E;
  valid_times : times_in_range E
}.

(** Owner and group have at most eight characters. *)
Definition names_fit (E : FileItem) : Prop :=
  (length (str (_username E)) <= 8 /\ length (str (_groupname E)) <= 8)%nat.

(** The size is below [10^8], so that its numeral fits eight columns. *)
Definition size_fits (E : FileItem) : Prop :=
  exists z, _size E = JS.Int z /\ (0 <= z < 10 ^ 8)%Z.

(** A name without the [/] that ends it, if any. *)
Fixpoint without_slash (name : string) : string :=
  match name with
  | EmptyString => EmptyString
  | String c EmptyString => if Ascii.eqb c "/" then EmptyString else name
  | String c rest => String c (without_slash rest)
  end.

(** The round trip as the specification words it: the decoded entry
    equals [E] field by field, the names being compared after the slash of
    a directory has been taken off. *)
Definition decodes_to_itself (E : FileItem) : Prop :=
  exists l, FileItem.line E = Some l /\
    let D := parseLine (_dirname E) l in
    _dirname D = _dirname E /\
    _selected D = _selected E /\
    _username D = _username E /\
    _groupname D = _groupname E /\
    _size D = _size E /\
    _month D = _month E /\
    _day D = _day E /\
    _hour D = _hour E /\
    _min D = _min E /\
    _modeStr D = _modeStr E /\
    _isDirectory D = _isDirectory E /\
    _isFile D = _isFile E /\
    (if _isDirectory E then without_slash (_filename D) else _filename D) = _filename E.

(** The entry a line of [E] decodes to: [E] with owner and group as their
    columns show them and the name as rendered. *)
Definition as_decoded (E : FileItem) : FileItem :=
  mkFileItem (_dirname E) (rendered_name E) (_isDirectory E) (_isFile E)
    (Some (column8 (str (_username E)))) (Some (column8 (str (_groupname E))))
    (_size E) (_month E) (_day E) (_hour E) (_min E) (_modeStr E) (_selected E).

(** The value read so far, [0] before the first digit. *)
Definition read_so_far (acc : option N) : N :=
  match acc with
  | Some a => a
  | None => 0%N
  end.

(** Ten fields laid out with the separators of the format. *)
Definition columns (se m u g sz mo d h mi name : string) : string :=
  se ++ " " ++ m ++ " " ++ u ++ " " ++ g ++ " " ++ sz ++ " "
     ++ mo ++ " " ++ d ++ " " ++ h ++ ":" ++ mi ++ " " ++ name.

(** The text of the line of [E], column by column. *)
Definition line_text (E : FileItem) : string :=
  columns
    (if _selected E then "*" else " ")
    (str (_modeStr E))
    (column8 (str (_username E)))
    (column8 (str (_groupname E)))
    (right_aligned 8 " " (JS.toString (_size E)))
    (right_aligned 2 "0" (JS.toString (_month E)))
    (right_aligned 2 "0" (JS.toString (_day E)))
    (right_aligned 2 "0" (JS.toString (_hour E)))
    (right_aligned 2 "0" (JS.toString (_min E)))
    (rendered_name E).

(** Decimal and hexadecimal digits, white space, and what a field begins
    with. *)
Definition is_decimal_digit (c : ascii) : bool :=
  let n := N_of_ascii c in ((48 <=? n) && (n <=? 57))%N.

Definition is_hex_digit (c : ascii) : bool :=
  let n := N_of_ascii c in
  (is_decimal_digit c || ((97 <=? n) && (n <=? 102)) || ((65 <=? n) && (n <=? 70)))%N.

Fixpoint white (s : string) : bool :=
  match s with
  | EmptyString => true
  | String c s' => JS.isWhiteSpace c && white s'
  end.

Fixpoint all_decimal (s : string) : bool :=
  match s with
  | EmptyString => true
  | String c s' => is_decimal_digit c && all_decimal s'
  end.

Definition begins_with_decimal (s : string) : bool :=
  match s with
  | String c _ => is_decimal_digit c
  | EmptyString => false
  end.

(** The text begins with [0x] or [0X]. *)
Definition hex_prefix (s : string) : bool :=
  match s with
  | String "0" (String "x" _) => true
  | String "0" (String "X" _) => true
  | _ => false
  end.

(** An optional sign and what it stands for. *)
Definition is_sign (sg : string) : Prop := sg = "" \/ sg = "+" \/ sg = "-".

Definition sign_value (sg : string) : Z := if sg =? "-" then (-1)%Z else 1%Z.

(** The number that a string of decimal digits writes. *)
Fixpoint decimal_value_from (acc : N) (ds : string) : N :=
  match ds with
  | EmptyString => acc
  | String c ds' => decimal_value_from (10 * acc + (N_of_ascii c - 48))%N ds'
  end.

Definition decimal_value (ds : string) : N := decimal_value_from 0 ds.

(** A field with a numeral at its head: white space, an optional sign,
    then a decimal digit that does not open a [0x], or [0x] and a
    hexadecimal digit; whatever follows. *)
Inductive has_leading_numeral (s : string) : Prop :=
| leading_decimal (w sg : string) (c : ascii) (rest : string) :
    white w = true -> is_sign sg -> is_decimal_digit c = true ->
    hex_prefix (String c rest) = false ->
    s = w ++ sg ++ String c rest -> has_leading_numeral s
| leading_hexadecimal (w sg : string) (x c : ascii) (rest : string) :
    white w = true -> is_sign sg -> (x = "x" \/ x = "X")%char ->
    is_hex_digit c = true ->
    s = w ++ sg ++ String "0" (String x (String c rest)) -> has_leading_numeral s.

(** How a numeric field [v] is read from the text [s] of its column: it
    is [NaN] exactly when [s] has no numeral at its head, and when [s] is
    white space, an optional sign, decimal digits [ds] and a rest that
    does not go on with a digit, it is the number that [ds] writes, with
    the sign. *)
Definition reads_numeral (v : JS.number) (s : string) : Prop :=
  (v = JS.NaN <-> ~ has_leading_numeral s) /\
  (forall w sg ds rest,
     s = w ++ sg ++ ds ++ rest ->
     white w = true -> is_sign sg -> ds <> "" -> all_decimal ds = true ->
     hex_prefix (ds ++ rest) = false -> begins_with_decimal rest = false ->
     v = JS.Int (sign_value sg * Z.of_N (decimal_value ds))).




(** The first line of a text: what comes before its first line break. *)
Fixpoint first_line (content : string) : string :=
  match content with
  | EmptyString => EmptyString
  | String c rest =>
      if Ascii.eqb c "010" || Ascii.eqb c "013" then EmptyString
      else String c (first_line rest)
  end.

(** What a turn of the selection loop makes of one line. *)
Definition is_dot_entry (f : FileItem) : bool :=
  (fileName f =? ".") || (fileName f =? "..").

Definition select_line (dir : string) (value allowDotEntries : bool) (text : string) : string :=
  let f := parseLine dir text in
  if is_dot_entry f && negb allowDotEntries then text
  else line_text (FileItem.select value f).

(** The index [k] lies in [[i, i + n)]. *)
Definition in_range (i n k : nat) : bool :=
  ((i <=? k) && (k <? i + n))%nat.

(** The buffer a method leaves behind, whether it returned or threw. *)
Definition left_behind {A S : Type} (r : result A S) : option S :=
  match r with
  | Returned _ s => Some s
  | Threw _ s => Some s
  | Diverges => None
  end.

(** A line that decodes to a valid entry that is not a directory and
    whose size fits its column. *)
Definition decodes_to_valid_file (dir text : string) : Prop :=
  valid (parseLine dir text) /\ size_fits (parseLine dir text) /\
  _isDirectory (parseLine dir text) = false.

(** A name begins with a dot. *)
Definition starts_with_dot (name : string) : bool :=
  match name with
  | String "." _ => true
  | _ => false
  end.

(** The names the listing shows: never [.] nor [..], and no other name
    that begins with a dot unless dot files are shown. *)
Definition is_listed (show_dot_files : bool) (name : string) : bool :=
  negb (name =? ".") && negb (name =? "..") &&
  (show_dot_files || negb (starts_with_dot name)).

(** [statSync] succeeds on the entry [name] of [dirname]. *)
Definition stat_succeeds (fs : FileSystem) (path_join : string -> string -> string)
    (dirname name : string) : bool :=
  match statSync fs (path_join dirname name) with
  | inr _ => true
  | inl _ => false
  end.

(** The messages shown for the entries whose [statSync] throws. *)
Definition stat_messages (fs : FileSystem) (path_join : string -> string -> string)
    (dirname : string) (names : list string) : list effect :=
  flat_map
    (fun name =>
       match statSync fs (path_join dirname name) with
       | inr _ => []
       | inl err =>
           [showErrorMessage
              ("Could not get stat of " ++ path_join dirname name ++ ": " ++ exn_str err)]
       end)
    names.

(** ** Vocabulary for the rest of the code *)

(** [k] copies of the string [p], one after the other. *)
Fixpoint copies (k : nat) (p : string) : string :=
  match k with
  | O => EmptyString
  | S k' => copies k' p ++ p
  end.

(** The entry [E] seen from the directory [dir]. *)
Definition with_dirname (dir : string) (E : FileItem) : FileItem :=
  mkFileItem dir (_filename E) (_isDirectory E) (_isFile E)
    (_username E) (_groupname E) (_size E) (_month E) (_day E)
    (_hour E) (_min E) (_modeStr E) (_selected E).

(** The slash that a second rendering adds to a directory. *)
Definition extra_slash (E : FileItem) : string :=
  if _isDirectory E then "/" else "".

(** The character [c] occurs in [s]. *)
Fixpoint occurs (c : ascii) (s : string) : bool :=
  match s with
  | EmptyString => false
  | String a s' => Ascii.eqb a c || occurs c s'
  end.

(** No slash in the mode, the owner, the group or the name of [E]. *)
Definition slash_free (E : FileItem) : Prop :=
  occurs "/" (str (_modeStr E)) = false /\
  occurs "/" (str (_username E)) = false /\
  occurs "/" (str (_groupname E)) = false /\
  occurs "/" (_filename E) = false.

(** The positions of a selection lie inside the document. *)
Definition inside_document (at_ : vscode.TextEditor) : Prop :=
  vscode.line (vscode.start (vscode.selection at_))
    <= vscode.line (vscode.end_ (vscode.selection at_)) /\
  vscode.line (vscode.end_ (vscode.selection at_)) < vscode.lineCount (vscode.document at_) /\
  vscode.line (vscode.active (vscode.selection at_)) < vscode.lineCount (vscode.document at_).

(** An editor that shows [lines] under the header of [dir], with the
    cursor at the start of line [k] and nothing selected. *)
Definition showing (dir : string) (lines : list string) (k : nat) : vscode.TextEditor :=
  vscode.mkTextEditor
    (vscode.mkTextDocument (dir ++ ":") lines)
    (vscode.mkSelection (vscode.mkPosition k 0) (vscode.mkPosition k 0)
       (vscode.mkPosition k 0)).

(** An entry whose line the selection loop rewrites as the line of an
    entry: valid, with a size that fits, and not shown as [.] or [..]. *)
Definition rendered_entry (E : FileItem) : Prop :=
  valid E /\ size_fits E /\ rendered_name E <> "." /\ rendered_name E <> "..".

(** A file among them that is not selected. *)
Definition unselected_file (E : FileItem) : Prop :=
  valid E /\ size_fits E /\ _isDirectory E = false /\ _selected E = false.

(** The first 51 columns of a line: everything before the space that
    precedes the name. *)
Definition before_name (se m u g sz mo d h mi : string) : string :=
  se ++ " " ++ m ++ " " ++ u ++ " " ++ g ++ " " ++ sz ++ " "
     ++ mo ++ " " ++ d ++ " " ++ h ++ ":" ++ mi.

(** ** Sample data *)

Definition sample_file : FileItem :=
  mkFileItem "/tmp" "x" false true (Some "root") (Some "staff")
    (JS.Int 42) (JS.Int 1) (JS.Int 5) (JS.Int 9) (JS.Int 3) (Some "-rw-r--r--") false.

Definition sample_directory : FileItem :=
  mkFileItem "/tmp" "sub" true false (Some "root") (Some "staff")
    (JS.Int 4096) (JS.Int 1) (JS.Int 5) (JS.Int 9) (JS.Int 3) (Some "drwxr-xr-x") false.

Definition sample_file_line : string :=
  "  -rw-r--r-- root     staff          42 01 05 09:03 x".

Definition sample_directory_line : string :=
  "  drwxr-xr-x root     staff        4096 01 05 09:03 sub/".

(** A file changed on 5 January at 09:03 whose status changed on 17 March
    at 14:30. *)
Definition sample_stats : Stats :=
  let modified := mkDate (JS.Int 0) (JS.Int 5) (JS.Int 9) (JS.Int 3) in
  let changed := mkDate (JS.Int 2) (JS.Int 17) (JS.Int 14) (JS.Int 30) in
  mkStats false (JS.Int 0) (JS.Int 20) (JS.Int 42) modified modified changed modified.

Definition sample_Mode (stats : Stats) : Mode :=
  if stats_isDirectory stats then mkMode true false "drwxr-xr-x"
  else mkMode false true "-rw-r--r--".

Definition sample_resolver : IDResolver :=
  mkIDResolver (fun _ => Some "root") (fun _ => Some "staff").

(** The buffer of [/tmp] with a directory and a file, and an editor
    showing it with lines 0 and 1 selected. *)
Definition sample_buffer : list string :=
  ["/tmp:"; sample_directory_line; sample_file_line].

Definition sample_editor : vscode.TextEditor :=
  vscode.mkTextEditor
    (vscode.mkTextDocument "/tmp:" [sample_directory_line; sample_file_line])
    (vscode.mkSelection (vscode.mkPosition 0 0) (vscode.mkPosition 2 0)
       (vscode.mkPosition 2 0)).

Definition sample_provider : DiredProvider :=
  mkDiredProvider true true sample_buffer.

(** A buffer that shows the entry [.], and lines of [sample_buffer] once
    selected. *)
Definition sample_dot_line : string :=
  "  drwxr-xr-x root     staff        4096 01 05 09:03 .".

Definition sample_dot_buffer : list string :=
  ["/tmp:"; sample_dot_line; sample_file_line].

Definition sample_header_selected : string :=
  "* mp:                        NaN NaN NaN NaN:NaN ".

Definition sample_directory_selected : string :=
  "* drwxr-xr-x root     staff        4096 01 05 09:03 sub//".

Definition sample_directory_selected_twice : string :=
  "* drwxr-xr-x root     staff        4096 01 05 09:03 sub///".

(** A directory [/tmp] that holds [a.txt], [.hidden] and [broken], the
    last of which cannot be examined. *)
Definition sample_path_join (a b : string) : string := a ++ "/" ++ b.

Definition sample_fs : FileSystem :=
  mkFileSystem
    (fun _ => inr ["a.txt"; ".hidden"; "broken"])
    (fun p => if p =? "/tmp/broken" then inl (FsError "ENOENT") else inr sample_stats)
    (fun _ => inr sample_stats).

Definition sample_fs_scenario : FileSystem :=
  mkFileSystem
    (fun _ => inr ["a.txt"; ".hidden"])
    (fun _ => inr sample_stats)
    (fun _ => inr sample_stats).

Definition sample_hiding_provider : DiredProvider :=
  mkDiredProvider true false [].

(** A file of 123456789 bytes whose owner and group fill their columns. *)
Definition sample_big_file : FileItem :=
  mkFileItem "/tmp" "x" false true (Some "operator") (Some "operator")
    (JS.Int 123456789) (JS.Int 1) (JS.Int 5) (JS.Int 9) (JS.Int 3) (Some "-rw-r--r--") false.

(** Removing [/tmp/x] gives the directory of the scenario; no other path
    can be removed. *)
Definition sample_unlinkSync (path : string) : exn + FileSystem :=
  if path =? "/tmp/x" then inr sample_fs_scenario else inl (FsError "ENOENT").

(** A directory [/home] that holds the file [a.txt] and the directory
    [sub]. *)
Definition sample_directory_stats : Stats :=
  let changed := mkDate (JS.Int 2) (JS.Int 17) (JS.Int 14) (JS.Int 30) in
  mkStats true (JS.Int 0) (JS.Int 20) (JS.Int 4096) changed changed changed changed.

Definition sample_fs_home : FileSystem :=
  mkFileSystem
    (fun _ => inr ["a.txt"; "sub"])
    (fun p => if p =? "/home/sub" then inr sample_directory_stats else inr sample_stats)
    (fun _ => inr sample_directory_stats).

Definition sample_home_files : list FileItem :=
  [FileItem.create sample_Mode sample_resolver "/home" "a.txt" sample_stats;
   FileItem.create sample_Mode sample_resolver "/home" "sub" sample_directory_stats].


(** ** Strings: [take], [drop], [substring] and concatenation *)

Lemma append_nil_r (s : string) : s ++ "" = s.
Proof. induction s as [|c s IH]; simpl; congruence. Qed.

Lemma append_assoc (a b c : string) : (a ++ b) ++ c = a ++ b ++ c.
Proof. induction a as [|x a IH]; simpl; congruence. Qed.

Lemma length_append (a b : string) : length (a ++ b) = length a + length b.
Proof. induction a as [|x a IH]; simpl; congruence. Qed.

Lemma length_replicate (n : nat) (c : ascii) : length (replicate n c) = n.
Proof. induction n as [|n IH]; simpl; congruence. Qed.

Lemma take_all (s : string) (n : nat) : length s <= n -> JS.take n s = s.
Proof.
  revert n; induction s as [|c s IH]; intros [|n] H; simpl in *; try reflexivity; try lia.
  rewrite IH by lia. reflexivity.
Qed.

Lemma take_append (a b : string) (n : nat) :
  n <= length a -> JS.take n (a ++ b) = JS.take n a.
Proof.
  revert n; induction a as [|c a IH]; intros [|n] H; simpl in *; try reflexivity; try lia.
  rewrite IH by lia. reflexivity.
Qed.

Lemma take_append_exact (a b : string) : JS.take (length a) (a ++ b) = a.
Proof. rewrite take_append by lia. apply take_all. lia. Qed.

Lemma drop_append (a b : string) (n : nat) :
  length a <= n -> JS.drop n (a ++ b) = JS.drop (n - length a) b.
Proof.
  revert n; induction a as [|c a IH]; intros n H; simpl in *.
  - rewrite Nat.sub_0_r. reflexivity.
  - destruct n as [|n]; [lia|]. simpl. apply IH. lia.
Qed.

Lemma drop_past (s : string) (n : nat) : length s <= n -> JS.drop n s = "".
Proof.
  revert n; induction s as [|c s IH]; intros [|n] H; simpl in *; try reflexivity; try lia.
  apply IH. lia.
Qed.

Lemma length_take (s : string) (n : nat) : length (JS.take n s) = Nat.min n (length s).
Proof.
  revert n; induction s as [|c s IH]; intros [|n]; simpl; try reflexivity.
  rewrite IH. reflexivity.
Qed.

(** [substring] between ordered indices. *)
Lemma substring_ordered (s : string) (i j : nat) :
  i <= j ->
  JS.substring s i j =
  JS.take (Nat.min j (length s) - Nat.min i (length s)) (JS.drop (Nat.min i (length s)) s).
Proof.
  intros H. unfold JS.substring.
  rewrite (Nat.min_l (Nat.min i _) (Nat.min j _)) by lia.
  rewrite (Nat.max_r (Nat.min i _) (Nat.min j _)) by lia. reflexivity.
Qed.

(** A field that starts past the end of the text is empty. *)
Lemma substring_past (s : string) (i j : nat) :
  length s <= i -> length s <= j -> JS.substring s i j = "".
Proof.
  intros Hi Hj. unfold JS.substring.
  rewrite !Nat.min_r by lia. rewrite ?Nat.min_id, ?Nat.max_id, Nat.sub_diag.
  destruct (JS.drop (length s) s); reflexivity.
Qed.


(** Skipping a whole prefix. *)
Lemma substring_skip (a b : string) (i j : nat) :
  length a <= i -> i <= j ->
  JS.substring (a ++ b) i j = JS.substring b (i - length a) (j - length a).
Proof.
  intros Hi Hj.
  destruct (Nat.le_ge_cases i (length a + length b)) as [Hl|Hl].
  - rewrite !substring_ordered by lia. rewrite length_append.
    rewrite (Nat.min_l i) by lia. rewrite (Nat.min_l (i - length a)) by lia.
    rewrite drop_append by lia. f_equal. lia.
  - rewrite !substring_past by (rewrite ?length_append; lia). reflexivity.
Qed.

(** The field at the head of the text. *)
Lemma substring_head (a b : string) (j : nat) :
  length a = j -> JS.substring (a ++ b) 0 j = a.
Proof.
  intros <-. rewrite substring_ordered by lia. rewrite length_append.
  rewrite Nat.min_l by lia. simpl. rewrite Nat.sub_0_r. apply take_append_exact.
Qed.

Lemma substringFrom_skip (a b : string) (i : nat) :
  length a <= i -> JS.substringFrom (a ++ b) i = JS.substringFrom b (i - length a).
Proof.
  intros H. unfold JS.substringFrom. rewrite length_append.
  destruct (Nat.le_ge_cases i (length a + length b)).
  - rewrite substring_skip by lia. f_equal. lia.
  - rewrite !substring_past by (rewrite ?length_append; lia). reflexivity.
Qed.

Lemma substringFrom_0 (s : string) : JS.substringFrom s 0 = s.
Proof.
  unfold JS.substringFrom. rewrite <- (append_nil_r s) at 1.
  apply substring_head. reflexivity.
Qed.

(** ** Numerals: [toString] and [parseInt] *)

Lemma digit_char_cases (d : N) :
  (d < 10)%N ->
  In (d, JS.digit_char d)
     [(0, "0"); (1, "1"); (2, "2"); (3, "3"); (4, "4");
      (5, "5"); (6, "6"); (7, "7"); (8, "8"); (9, "9")]%N%char.
Proof.
  intros H.
  assert (d = 0 \/ d = 1 \/ d = 2 \/ d = 3 \/ d = 4 \/
          d = 5 \/ d = 6 \/ d = 7 \/ d = 8 \/ d = 9)%N as C by lia.
  repeat (destruct C as [-> | C]; [simpl; tauto|]). subst d. simpl. tauto.
Qed.

Ltac each_digit d H :=
  let C := fresh "C" in
  pose proof (digit_char_cases d H) as C; simpl in C;
  repeat (destruct C as [C | C]; [injection C as <- <- | ]); try contradiction.

Lemma digit_value_digit_char (d : N) :
  (d < 10)%N -> JS.digit_value 10 (JS.digit_char d) = Some d.
Proof. intros H. each_digit d H; reflexivity. Qed.

Lemma digit_char_not_space (d : N) :
  (d < 10)%N -> JS.isWhiteSpace (JS.digit_char d) = false.
Proof. intros H. each_digit d H; reflexivity. Qed.

Lemma all_digits_append (a b : string) :
  all_digits (a ++ b) <-> all_digits a /\ all_digits b.
Proof. induction a as [|c a IH]; simpl; tauto. Qed.

Lemma all_digits_digits_fuel (fuel : nat) (n : N) : all_digits (JS.digits_fuel fuel n).
Proof.
  revert n; induction fuel as [|fuel IH]; intros n; simpl; [exact I|].
  destruct (N.ltb_spec n 10) as [H|H].
  - simpl. rewrite digit_value_digit_char by exact H. split; [discriminate | exact I].
  - apply all_digits_append. split; [apply IH|]. simpl.
    rewrite digit_value_digit_char by (apply N.mod_lt; lia).
    split; [discriminate | exact I].
Qed.

Lemma parse_digits_snoc (a : string) (acc : option N) (c : ascii) (d : N) :
  all_digits a -> JS.digit_value 10 c = Some d ->
  JS.parse_digits 10 (a ++ String c "") acc =
  Some (10 * read_so_far (JS.parse_digits 10 a acc) + d)%N.
Proof.
  revert acc; induction a as [|x a IH]; intros acc Ha Hc; simpl.
  - rewrite Hc. reflexivity.
  - destruct Ha as [Hx Ha]. destruct (JS.digit_value 10 x) as [v|]; [|congruence].
    apply IH; assumption.
Qed.

Lemma parse_digits_fuel (fuel : nat) (n : N) (acc : option N) :
  fuel <> O -> (n < 2 ^ N.of_nat fuel)%N -> read_so_far acc = 0%N ->
  JS.parse_digits 10 (JS.digits_fuel fuel n) acc = Some n.
Proof.
  revert n; induction fuel as [|fuel IH]; intros n Hf Hn Hacc.
  - congruence.
  - simpl JS.digits_fuel. destruct (N.ltb_spec n 10) as [H|H].
    + simpl. rewrite digit_value_digit_char by exact H.
      fold (read_so_far acc). rewrite Hacc. f_equal; lia.
    + rewrite parse_digits_snoc with (d := (n mod 10)%N).
      * rewrite Nat2N.inj_succ, N.pow_succ_r' in Hn.
        rewrite IH; [cbn [read_so_far]; f_equal; symmetry; apply N.div_mod; lia | | | exact Hacc].
        -- intros ->. simpl in Hn. lia.
        -- apply N.Div0.div_lt_upper_bound; lia.
      * apply all_digits_digits_fuel.
      * apply digit_value_digit_char. apply N.mod_lt. lia.
Qed.

Lemma digits_fuel_length (fuel : nat) (n : N) (k : nat) :
  fuel <> O -> k <> O -> (n < 2 ^ N.of_nat fuel)%N -> (n < 10 ^ N.of_nat k)%N ->
  1 <= length (JS.digits_fuel fuel n) <= k.
Proof.
  revert n k; induction fuel as [|fuel IH]; intros n k Hf Hk Hn Hnk; [congruence|].
  simpl JS.digits_fuel. destruct (N.ltb_spec n 10) as [H|H].
  - simpl. lia.
  - rewrite length_append. simpl.
    rewrite Nat2N.inj_succ, N.pow_succ_r' in Hn.
    destruct k as [|[|k]]; [congruence | simpl in Hnk; lia |].
    rewrite Nat2N.inj_succ, N.pow_succ_r' in Hnk.
    specialize (IH (n / 10)%N (S k)).
    destruct IH as [IH1 IH2]; try lia.
    + intros ->. simpl in Hn. lia.
    + apply N.Div0.div_lt_upper_bound; lia.
    + apply N.Div0.div_lt_upper_bound; lia.
Qed.

Lemma digits_fuel_enough (n : N) : (n < 2 ^ N.of_nat (S (N.to_nat (N.log2 n))))%N.
Proof.
  rewrite Nat2N.inj_succ, N2Nat.id.
  destruct (N.eq_dec n 0) as [->|Hn]; [reflexivity|].
  apply N.log2_spec. lia.
Qed.

Lemma all_digits_digits (n : N) : all_digits (JS.digits n).
Proof. apply all_digits_digits_fuel. Qed.

Lemma parse_digits_digits (n : N) (acc : option N) :
  read_so_far acc = 0%N -> JS.parse_digits 10 (JS.digits n) acc = Some n.
Proof.
  intros H. apply parse_digits_fuel; [discriminate | apply digits_fuel_enough | exact H].
Qed.

Lemma length_digits (n : N) (k : nat) :
  k <> O -> (n < 10 ^ N.of_nat k)%N -> 1 <= length (JS.digits n) <= k.
Proof.
  intros Hk H. apply digits_fuel_length;
    [discriminate | exact Hk | apply digits_fuel_enough | exact H].
Qed.

(** A decimal digit is neither white space, nor a sign, nor an [x]. *)
Lemma digit_is_plain (c : ascii) :
  JS.digit_value 10 c <> None ->
  JS.isWhiteSpace c = false /\ c <> "-"%char /\ c <> "+"%char /\
  c <> "x"%char /\ c <> "X"%char.
Proof.
  destruct c as [[] [] [] [] [] [] [] []]; vm_compute; intros H;
    try (exfalso; apply H; reflexivity);
    repeat split; try reflexivity; discriminate.
Qed.

Lemma parseInt_numeral (s : string) (v : N) :
  all_digits s -> JS.parse_digits 10 s None = Some v -> JS.parseInt s = JS.Int (Z.of_N v).
Proof.
  intros Hs Hv. destruct s as [|c r]; [discriminate|].
  destruct Hs as [Hc Hr]. destruct (digit_is_plain c Hc) as (Hw & Hm & Hp & _).
  unfold JS.parseInt. simpl JS.trimStart. rewrite Hw.
  assert (JS.strip_sign (String c r) = (1%Z, String c r)) as ->.
  { unfold JS.strip_sign.
    destruct c as [[] [] [] [] [] [] [] []]; try reflexivity; congruence. }
  assert (JS.strip_prefix (String c r) = (10%N, String c r)) as ->.
  { destruct r as [|x r]; [destruct c as [[] [] [] [] [] [] [] []]; reflexivity|].
    destruct Hr as [Hx _]. destruct (digit_is_plain x Hx) as (_ & _ & _ & Hx1 & Hx2).
    unfold JS.strip_prefix.
    destruct c as [[] [] [] [] [] [] [] []]; try reflexivity;
      destruct x as [[] [] [] [] [] [] [] []]; try reflexivity; congruence. }
  rewrite Hv. f_equal. lia.
Qed.

Lemma trimStart_spaces (k : nat) (s : string) :
  JS.trimStart (replicate k " " ++ s) = JS.trimStart s.
Proof. induction k as [|k IH]; simpl; [reflexivity | exact IH]. Qed.

Lemma parseInt_spaces (k : nat) (s : string) :
  JS.parseInt (replicate k " " ++ s) = JS.parseInt s.
Proof. unfold JS.parseInt. rewrite trimStart_spaces. reflexivity. Qed.

Lemma all_digits_zeros (k : nat) : all_digits (replicate k "0").
Proof. induction k as [|k IH]; simpl; [exact I | split; [discriminate | exact IH]]. Qed.

Lemma parse_digits_zeros (k : nat) (s : string) (acc : option N) :
  read_so_far acc = 0%N ->
  exists acc', read_so_far acc' = 0%N /\
    JS.parse_digits 10 (replicate k "0" ++ s) acc = JS.parse_digits 10 s acc'.
Proof.
  revert acc; induction k as [|k IH]; intros acc H; simpl.
  - exists acc. split; [exact H | reflexivity].
  - fold (read_so_far acc). rewrite H. apply IH. reflexivity.
Qed.

(** Reading back a size column and a two-digit column. *)
Lemma parseInt_size_column (w : nat) (n : N) :
  JS.parseInt (right_aligned w " " (JS.digits n)) = JS.Int (Z.of_N n).
Proof.
  unfold right_aligned. rewrite parseInt_spaces.
  apply parseInt_numeral; [apply all_digits_digits | apply parse_digits_digits; reflexivity].
Qed.

Lemma parseInt_zero_padded (w : nat) (n : N) :
  JS.parseInt (right_aligned w "0" (JS.digits n)) = JS.Int (Z.of_N n).
Proof.
  unfold right_aligned. apply parseInt_numeral.
  - apply all_digits_append. split; [apply all_digits_zeros | apply all_digits_digits].
  - destruct (parse_digits_zeros (w - length (JS.digits n)) (JS.digits n) None eq_refl)
      as (acc' & H0 & ->).
    apply parse_digits_digits. exact H0.
Qed.

Lemma toString_nonneg (z : Z) : (0 <= z)%Z -> JS.toString (JS.Int z) = JS.digits (Z.to_N z).
Proof.
  intros H. simpl. destruct (Z.ltb_spec z 0); [lia | reflexivity].
Qed.

Lemma length_right_aligned (w : nat) (c : ascii) (s : string) :
  length s <= w -> length (right_aligned w c s) = w.
Proof.
  intros H. unfold right_aligned. rewrite length_append, length_replicate. lia.
Qed.

(** ** [pad] and [line] *)

Lemma replicate_shift (k : nat) (c : ascii) (s : string) :
  replicate k c ++ String c s = String c (replicate k c ++ s).
Proof. induction k as [|k IH]; simpl; [reflexivity | rewrite IH; reflexivity]. Qed.

(** With a one-character [p] the loop of [pad] ends within [size] turns. *)
Lemma pad_while_char (fuel : nat) (s : string) (size : nat) (c : ascii) :
  size - length s <= fuel ->
  pad_while fuel s size (String c "") = Some (right_aligned size c s).
Proof.
  unfold right_aligned.
  revert s; induction fuel as [|fuel IH]; intros s H; simpl;
    destruct (Nat.ltb_spec (length s) size) as [L|L]; try lia.
  - replace (size - length s) with 0 by lia. reflexivity.
  - rewrite IH by (simpl; lia). simpl length.
    replace (size - length s) with (S (size - S (length s))) by lia.
    simpl. rewrite replicate_shift. reflexivity.
  - replace (size - length s) with 0 by lia. reflexivity.
Qed.

Lemma pad_char (num : JS.number) (size : nat) (c : ascii) :
  pad num size (String c "") = Some (right_aligned size c (JS.toString num)).
Proof. unfold pad. rewrite append_nil_r. apply pad_while_char. lia. Qed.

(** With an empty [p] and a short numeral the loop never ends. *)
Lemma pad_while_empty (fuel : nat) (s : string) (size : nat) :
  length s < size -> pad_while fuel s size "" = None.
Proof.
  revert s; induction fuel as [|fuel IH]; intros s H; simpl;
    destruct (Nat.ltb_spec (length s) size) as [L|L]; try lia; [reflexivity|].
  apply IH. exact H.
Qed.

Lemma take_append_long (a b : string) (n : nat) :
  length a <= n -> JS.take n (a ++ b) = a ++ JS.take (n - length a) b.
Proof.
  revert n; induction a as [|c a IH]; intros n H; simpl in *.
  - rewrite Nat.sub_0_r. reflexivity.
  - destruct n as [|n]; [lia|]. simpl. rewrite IH by lia. reflexivity.
Qed.

Lemma column8_spec (s : string) : JS.substring (s ++ "        ") 0 8 = column8 s.
Proof.
  unfold JS.substring. rewrite length_append. simpl length.
  replace (Nat.min 8 (length s + 8)) with 8 by lia.
  cbn [Nat.min Nat.max Nat.sub JS.drop].
  unfold column8. destruct (Nat.leb_spec (length s) 8) as [L|L].
  - rewrite take_append_long by exact L. f_equal.
    remember (8 - length s) as k eqn:Hk.
    assert (k <= 8) as Hle by lia. clear Hk.
    do 9 (destruct k as [|k]; [reflexivity|]). lia.
  - apply take_append. lia.
Qed.

Lemma length_column8 (s : string) : length (column8 s) = 8.
Proof.
  unfold column8. destruct (Nat.leb_spec (length s) 8) as [L|L].
  - rewrite length_append, length_replicate. lia.
  - rewrite length_take. lia.
Qed.

(** [line] always ends, and its text is [line_text]. *)
Lemma line_eq (E : FileItem) : FileItem.line E = Some (line_text E).
Proof.
  unfold FileItem.line. rewrite !pad_char. cbn [bind].
  rewrite !column8_spec. reflexivity.
Qed.

(** ** The fixed columns *)

Section Layout.
(** A text made of fields of the widths of the format, whatever they hold. *)
Variables se m u g sz mo d h mi name : string.
Hypothesis Hse : length se = 1.
Hypothesis Hm : length m = 10.
Hypothesis Hu : length u = 8.
Hypothesis Hg : length g = 8.
Hypothesis Hsz : length sz = 8.
Hypothesis Hmo : length mo = 2.
Hypothesis Hd : length d = 2.
Hypothesis Hh : length h = 2.
Hypothesis Hmi : length mi = 2.

Local Abbreviation text := (columns se m u g sz mo d h mi name).

Ltac skip_fields :=
  unfold columns;
  repeat (rewrite substring_skip
            by (rewrite ?Hse, ?Hm, ?Hu, ?Hg, ?Hsz, ?Hmo, ?Hd, ?Hh, ?Hmi; simpl length; lia);
          rewrite ?Hse, ?Hm, ?Hu, ?Hg, ?Hsz, ?Hmo, ?Hd, ?Hh, ?Hmi;
          simpl length; cbn [Nat.sub]).

Ltac field := skip_fields; apply substring_head; (assumption || reflexivity).

Lemma column_marker : JS.substring text 0 1 = se.
Proof. field. Qed.

Lemma column_1 : JS.substring text 1 2 = " ".
Proof. field. Qed.

Lemma column_mode : JS.substring text 2 12 = m.
Proof. field. Qed.

Lemma column_12 : JS.substring text 12 13 = " ".
Proof. field. Qed.

Lemma column_owner : JS.substring text 13 21 = u.
Proof. field. Qed.

Lemma column_21 : JS.substring text 21 22 = " ".
Proof. field. Qed.

Lemma column_group : JS.substring text 22 30 = g.
Proof. field. Qed.

Lemma column_30 : JS.substring text 30 31 = " ".
Proof. field. Qed.

Lemma column_size : JS.substring text 31 39 = sz.
Proof. field. Qed.

Lemma column_39 : JS.substring text 39 40 = " ".
Proof. field. Qed.

Lemma column_month : JS.substring text 40 42 = mo.
Proof. field. Qed.

Lemma column_42 : JS.substring text 42 43 = " ".
Proof. field. Qed.

Lemma column_day : JS.substring text 43 45 = d.
Proof. field. Qed.

Lemma column_45 : JS.substring text 45 46 = " ".
Proof. field. Qed.

Lemma column_hour : JS.substring text 46 48 = h.
Proof. field. Qed.

Lemma column_48 : JS.substring text 48 49 = ":".
Proof. field. Qed.

Lemma column_minute : JS.substring text 49 51 = mi.
Proof. field. Qed.

Lemma column_51 : JS.substring text 51 52 = " ".
Proof. field. Qed.

Lemma column_name : JS.substringFrom text 52 = name.
Proof.
  unfold columns.
  repeat (rewrite substringFrom_skip
            by (rewrite ?Hse, ?Hm, ?Hu, ?Hg, ?Hsz, ?Hmo, ?Hd, ?Hh, ?Hmi; simpl length; lia);
          rewrite ?Hse, ?Hm, ?Hu, ?Hg, ?Hsz, ?Hmo, ?Hd, ?Hh, ?Hmi;
          simpl length; cbn [Nat.sub]).
  apply substringFrom_0.
Qed.

(** Decoding such a text reads every field back from its column. *)
Lemma parseLine_text (dir : string) :
  parseLine dir text =
  mkFileItem dir name (JS.substring m 0 1 =? "d") (JS.substring m 0 1 =? "-")
    (Some u) (Some g) (JS.parseInt sz) (JS.parseInt mo) (JS.parseInt d)
    (JS.parseInt h) (JS.parseInt mi) (Some m) (se =? "*").
Proof.
  unfold parseLine. cbn [Nat.add].
  rewrite column_name, column_owner, column_group, column_size, column_month,
    column_day, column_hour, column_minute, column_mode, column_marker.
  reflexivity.
Qed.

End Layout.

(** ** Encoding and decoding an entry *)

Lemma length_marker (b : bool) : length (if b then "*" else " ") = 1.
Proof. destruct b; reflexivity. Qed.

Lemma marker_eqb (b : bool) : ((if b then "*" else " ") =? "*") = b.
Proof. destruct b; reflexivity. Qed.

(** A natural number below [10^k] is written with at most [k] digits and
    is read back from a column padded with spaces or with zeros. *)
Lemma natural_numeral (z : Z) (k : nat) :
  k <> O -> (0 <= z < 10 ^ Z.of_nat k)%Z ->
  length (JS.toString (JS.Int z)) <= k /\
  (forall w, JS.parseInt (right_aligned w " " (JS.toString (JS.Int z))) = JS.Int z) /\
  (forall w, JS.parseInt (right_aligned w "0" (JS.toString (JS.Int z))) = JS.Int z).
Proof.
  intros Hk [H0 Hz]. rewrite toString_nonneg by exact H0.
  assert (Z.of_N (Z.to_N z) = z) as Hid by (apply Z2N.id; exact H0).
  repeat split.
  - apply length_digits; [exact Hk|].
    apply N2Z.inj_lt. rewrite Hid, N2Z.inj_pow, nat_N_Z. exact Hz.
  - intros w. rewrite parseInt_size_column, Hid. reflexivity.
  - intros w. rewrite parseInt_zero_padded, Hid. reflexivity.
Qed.

Lemma int_between_numeral (lo hi : Z) (x : JS.number) (k : nat) :
  int_between lo hi x -> k <> O -> (0 <= lo)%Z -> (hi < 10 ^ Z.of_nat k)%Z ->
  length (JS.toString x) <= k /\
  (forall w, JS.parseInt (right_aligned w " " (JS.toString x)) = x) /\
  (forall w, JS.parseInt (right_aligned w "0" (JS.toString x)) = x).
Proof.
  intros (z & -> & Hz) Hk Hlo Hhi. apply natural_numeral; [exact Hk | lia].
Qed.

(** Decoding the line of an entry whose fields fit their columns. *)
Lemma parseLine_line_text (dir : string) (E : FileItem) :
  length (str (_modeStr E)) = 10 ->
  length (JS.toString (_size E)) <= 8 ->
  length (JS.toString (_month E)) <= 2 ->
  length (JS.toString (_day E)) <= 2 ->
  length (JS.toString (_hour E)) <= 2 ->
  length (JS.toString (_min E)) <= 2 ->
  parseLine dir (line_text E) =
  mkFileItem dir (rendered_name E)
    (JS.substring (str (_modeStr E)) 0 1 =? "d")
    (JS.substring (str (_modeStr E)) 0 1 =? "-")
    (Some (column8 (str (_username E))))
    (Some (column8 (str (_groupname E))))
    (JS.parseInt (right_aligned 8 " " (JS.toString (_size E))))
    (JS.parseInt (right_aligned 2 "0" (JS.toString (_month E))))
    (JS.parseInt (right_aligned 2 "0" (JS.toString (_day E))))
    (JS.parseInt (right_aligned 2 "0" (JS.toString (_hour E))))
    (JS.parseInt (right_aligned 2 "0" (JS.toString (_min E))))
    (Some (str (_modeStr E)))
    (_selected E).
Proof.
  intros Hm Hsz Hmo Hd Hh Hmi. unfold line_text.
  rewrite parseLine_text;
    auto using length_marker, length_column8, length_right_aligned.
  rewrite marker_eqb. reflexivity.
Qed.

Lemma rendered_name_select (value : bool) (E : FileItem) :
  rendered_name (FileItem.select value E) = rendered_name E.
Proof. reflexivity. Qed.

Lemma column8_exact (s : string) : length s = 8 -> column8 s = s.
Proof.
  intros H. unfold column8. rewrite H. simpl. apply append_nil_r.
Qed.

Lemma without_slash_snoc (s : string) : without_slash (s ++ "/") = s.
Proof.
  induction s as [|c s IH]; [reflexivity|].
  simpl. rewrite IH. destruct (s ++ "/") eqn:Hs; [|reflexivity].
  destruct s; discriminate.
Qed.

(** C5. The line of an entry with defined owner and group, a mode string of
    ten characters, a size below 10^8 and time fields in range has the
    fixed columns of the format: the marker at 0, the mode at [2, 12), the
    owner at [13, 21), the group at [22, 30), the size at [31, 39), month,
    day, hour and minute at [40, 42), [43, 45), [46, 48) and [49, 51), a
    colon at 48, spaces between the fields, and from 52 on the name,
    followed by a slash exactly for a directory. *)
Theorem line_fixed_columns (E : FileItem) (u g m : string) :
  _username E = Some u -> _groupname E = Some g ->
  _modeStr E = Some m -> length m = 10 ->
  size_fits E -> times_in_range E ->
  exists l, FileItem.line E = Some l /\
    JS.substring l 0 1 = (if _selected E then "*" else " ") /\
    JS.substring l 1 2 = " " /\
    JS.substring l 2 12 = m /\
    JS.substring l 12 13 = " " /\
    JS.substring l 13 21 = column8 u /\
    JS.substring l 21 22 = " " /\
    JS.substring l 22 30 = column8 g /\
    JS.substring l 30 31 = " " /\
    JS.substring l 31 39 = right_aligned 8 " " (JS.toString (_size E)) /\
    length (right_aligned 8 " " (JS.toString (_size E))) = 8 /\
    JS.substring l 39 40 = " " /\
    JS.substring l 40 42 = right_aligned 2 "0" (JS.toString (_month E)) /\
    JS.substring l 42 43 = " " /\
    JS.substring l 43 45 = right_aligned 2 "0" (JS.toString (_day E)) /\
    JS.substring l 45 46 = " " /\
    JS.substring l 46 48 = right_aligned 2 "0" (JS.toString (_hour E)) /\
    JS.substring l 48 49 = ":" /\
    JS.substring l 49 51 = right_aligned 2 "0" (JS.toString (_min E)) /\
    JS.substring l 51 52 = " " /\
    JS.substringFrom l 52 = (if _isDirectory E then _filename E ++ "/" else _filename E).
Proof.
  intros Hu Hg Hm Hlen (z & Hz & Hsize) (Hmo & Hd & Hh & Hmi).
  exists (line_text E). split; [apply line_eq|].
  destruct (natural_numeral z 8 ltac:(discriminate) Hsize) as (Lsz & _).
  destruct (int_between_numeral 1 12 _ 2 Hmo) as (Lmo & _); try lia; try discriminate.
  destruct (int_between_numeral 1 31 _ 2 Hd) as (Ld & _); try lia; try discriminate.
  destruct (int_between_numeral 0 23 _ 2 Hh) as (Lh & _); try lia; try discriminate.
  destruct (int_between_numeral 0 59 _ 2 Hmi) as (Lmi & _); try lia; try discriminate.
  rewrite <- Hz in Lsz.
  unfold line_text. rewrite Hu, Hg, Hm. cbn [str].
  pose proof (length_marker (_selected E)) as Lse.
  pose proof (length_column8 u) as Lu.
  pose proof (length_column8 g) as Lg.
  pose proof (length_right_aligned 8 " " _ Lsz) as Wsz.
  pose proof (length_right_aligned 2 "0" _ Lmo) as Wmo.
  pose proof (length_right_aligned 2 "0" _ Ld) as Wd.
  pose proof (length_right_aligned 2 "0" _ Lh) as Wh.
  pose proof (length_right_aligned 2 "0" _ Lmi) as Wmi.
  repeat split;
    first [ exact Wsz
          | now apply column_marker | now apply column_1 | now apply column_mode
          | now apply column_12 | now apply column_owner | now apply column_21
          | now apply column_group | now apply column_30 | now apply column_size
          | now apply column_39 | now apply column_month | now apply column_42
          | now apply column_day | now apply column_45 | now apply column_hour
          | now apply column_48 | now apply column_minute | now apply column_51
          | now apply column_name ].
Qed.

Lemma line_fixed_columns_witness :
  exists l, FileItem.line sample_file = Some l /\
    JS.substring l 0 1 = " " /\ JS.substring l 31 39 = "      42" /\
    JS.substringFrom l 52 = "x".
Proof.
  destruct (line_fixed_columns sample_file "root" "staff" "-rw-r--r--")
    as (l & Hl & H0 & _ & _ & _ & _ & _ & _ & _ & Hsz & _ & _ & _ & _ & _ & _ & _ & _ & _ & _ & Hn);
    try reflexivity.
  - exists 42%Z. split; [reflexivity | lia].
  - repeat split; eexists; (split; [reflexivity | lia]).
  - exists l. repeat split; assumption.
Defined.


(** The decoded entry of a line of [E], for an entry that fits the
    columns. *)
Lemma decode_line_text (E : FileItem) :
  valid E -> size_fits E ->
  parseLine (_dirname E) (line_text E) = as_decoded E.
Proof.
  intros [_ [Hm1 Hm2] [Hk1 Hk2] _ (Hmo & Hd & Hh & Hmi)] (z & Hz & Hsize).
  destruct (natural_numeral z 8 ltac:(discriminate) Hsize) as (Lsz & Psz & _).
  destruct (int_between_numeral 1 12 _ 2 Hmo) as (Lmo & _ & Pmo); try lia; try discriminate.
  destruct (int_between_numeral 1 31 _ 2 Hd) as (Ld & _ & Pd); try lia; try discriminate.
  destruct (int_between_numeral 0 23 _ 2 Hh) as (Lh & _ & Ph); try lia; try discriminate.
  destruct (int_between_numeral 0 59 _ 2 Hmi) as (Lmi & _ & Pmi); try lia; try discriminate.
  rewrite <- Hz in Lsz, Psz.
  rewrite parseLine_line_text by assumption.
  rewrite Psz, Pmo, Pd, Ph, Pmi, <- Hk1, <- Hk2.
  unfold as_decoded. f_equal.
  destruct (_modeStr E); [reflexivity | congruence].
Qed.

(** C1, as the code has it.  For a valid entry whose size is below 10^8,
    decoding its line gives back the directory, the selection flag, the
    size, the month, the day, the hour, the minute, the mode string and both
    kind flags; the owner and the group come back as their eight columns
    show them, that is followed by spaces up to eight characters; the name
    comes back as rendered, with the slash of a directory. *)
Theorem decode_line_of_valid (E : FileItem) :
  valid E -> names_fit E -> size_fits E ->
  exists l, FileItem.line E = Some l /\
    parseLine (_dirname E) l = as_decoded E /\
    column8 (str (_username E)) =
      str (_username E) ++ replicate (8 - length (str (_username E))) " " /\
    column8 (str (_groupname E)) =
      str (_groupname E) ++ replicate (8 - length (str (_groupname E))) " " /\
    (if _isDirectory E then without_slash (_filename (as_decoded E))
     else _filename (as_decoded E)) = _filename E.
Proof.
  intros Hv [Hu Hg] Hs. exists (line_text E).
  split; [apply line_eq|]. split; [apply decode_line_text; assumption|].
  unfold column8.
  destruct (Nat.leb_spec (length (str (_username E))) 8); [|lia].
  destruct (Nat.leb_spec (length (str (_groupname E))) 8); [|lia].
  repeat split. unfold as_decoded, rendered_name. cbn [_filename].
  destruct (_isDirectory E); [apply without_slash_snoc | reflexivity].
Qed.

Lemma valid_sample_file : valid sample_file.
Proof.
  constructor; repeat split; try discriminate; try reflexivity;
    eexists; (split; [reflexivity | lia]).
Qed.

Lemma decode_line_of_valid_witness :
  parseLine "/tmp" sample_file_line = as_decoded sample_file.
Proof.
  destruct (decode_line_of_valid sample_file) as (l & Hl & Hd & _).
  - constructor; repeat split; try discriminate; try reflexivity;
      eexists; (split; [reflexivity | lia]).
  - split; simpl; lia.
  - exists 42%Z. split; [reflexivity | lia].
  - injection Hl as <-. exact Hd.
Defined.

(** C1 as it is worded fails on the owner column: the line of an entry
    owned by [root] decodes to an entry owned by [root] followed by four
    spaces.  It also fails on a size of nine digits, which moves the later
    fields one column to the right: the size decodes to its first eight
    digits. *)
Lemma decodes_to_itself_counterexample :
  (valid sample_file /\ names_fit sample_file /\ ~ decodes_to_itself sample_file) /\
  (valid sample_big_file /\ names_fit sample_big_file /\
   ~ decodes_to_itself sample_big_file).
Proof.
  split; (split; [|split]).
  - apply valid_sample_file.
  - split; simpl; lia.
  - intros (l & Hl & _ & _ & Hu & _).
    vm_compute in Hl. injection Hl as <-. vm_compute in Hu. discriminate.
  - constructor; repeat split; try discriminate; try reflexivity;
      eexists; (split; [reflexivity | lia]).
  - split; simpl; lia.
  - intros (l & Hl & _ & _ & _ & _ & Hsize & _).
    vm_compute in Hl. injection Hl as <-. vm_compute in Hsize. discriminate.
Qed.

(** ** Reading a numeric column *)

Lemma digit_value_decimal (c : ascii) :
  JS.digit_value 10 c = if is_decimal_digit c then Some (N_of_ascii c - 48)%N else None.
Proof. destruct c as [[] [] [] [] [] [] [] []]; reflexivity. Qed.

Lemma digit_value_hexadecimal (c : ascii) :
  match JS.digit_value 16 c with Some _ => true | None => false end = is_hex_digit c.
Proof. destruct c as [[] [] [] [] [] [] [] []]; reflexivity. Qed.

Lemma decimal_is_plain (c : ascii) :
  is_decimal_digit c = true ->
  JS.isWhiteSpace c = false /\ JS.strip_sign (String c "") = (1%Z, String c "").
Proof. destruct c as [[] [] [] [] [] [] [] []]; intros H; try discriminate H; split; reflexivity. Qed.

Lemma strip_sign_keeps (c : ascii) (r : string) :
  JS.strip_sign (String c "") = (1%Z, String c "") ->
  JS.strip_sign (String c r) = (1%Z, String c r).
Proof.
  unfold JS.strip_sign.
  destruct c as [[] [] [] [] [] [] [] []]; intros H; try reflexivity; discriminate H.
Qed.

Lemma strip_prefix_spec (t : string) :
  JS.strip_prefix t = if hex_prefix t then (16%N, JS.drop 2 t) else (10%N, t).
Proof.
  unfold JS.strip_prefix, hex_prefix.
  destruct t as [|c t]; [reflexivity|].
  destruct c as [[] [] [] [] [] [] [] []]; try reflexivity.
  destruct t as [|x t]; [reflexivity|].
  destruct x as [[] [] [] [] [] [] [] []]; reflexivity.
Qed.

Lemma hex_prefix_true (t : string) :
  hex_prefix t = true ->
  exists x r, (x = "x" \/ x = "X")%char /\ t = String "0" (String x r).
Proof.
  unfold hex_prefix. destruct t as [|c t]; [discriminate|].
  destruct c as [[] [] [] [] [] [] [] []]; try discriminate.
  destruct t as [|x t]; [discriminate|].
  destruct x as [[] [] [] [] [] [] [] []]; try discriminate; intros _;
    eexists _, t; (split; [|reflexivity]); tauto.
Qed.

Lemma trimStart_white (w t : string) :
  white w = true -> JS.trimStart (w ++ t) = JS.trimStart t.
Proof.
  induction w as [|c w IH]; intros H; [reflexivity|].
  simpl in H. apply andb_true_iff in H. destruct H as [Hc H].
  simpl. rewrite Hc. apply IH. exact H.
Qed.

Lemma trimStart_split (s : string) :
  exists w, white w = true /\ s = w ++ JS.trimStart s /\
            JS.trimStart (JS.trimStart s) = JS.trimStart s.
Proof.
  induction s as [|c s (w & Hw & Hs & Hi)].
  - exists "". repeat split.
  - simpl. destruct (JS.isWhiteSpace c) eqn:Hc.
    + exists (String c w). simpl. rewrite Hc, Hw. repeat split; [|exact Hi].
      f_equal. exact Hs.
    + exists "". simpl. rewrite Hc. repeat split.
Qed.

(** What [strip_sign] takes off is an optional sign. *)
Lemma strip_sign_split (t : string) :
  exists sg, is_sign sg /\ t = sg ++ snd (JS.strip_sign t) /\
             fst (JS.strip_sign t) = sign_value sg /\
             (sg = "" -> JS.strip_sign t = (1%Z, t)).
Proof.
  unfold JS.strip_sign, is_sign. destruct t as [|c r].
  - exists "". repeat split. tauto.
  - destruct c as [[] [] [] [] [] [] [] []];
      first [ exists "-"; repeat split; [tauto | discriminate]
            | exists "+"; repeat split; [tauto | discriminate]
            | exists ""; repeat split; tauto ].
Qed.

Lemma strip_sign_of_sign (sg : string) (c : ascii) (rest : string) :
  is_sign sg -> JS.strip_sign (String c "") = (1%Z, String c "") ->
  JS.isWhiteSpace c = false ->
  JS.trimStart (sg ++ String c rest) = sg ++ String c rest /\
  JS.strip_sign (sg ++ String c rest) = (sign_value sg, String c rest).
Proof.
  intros [-> | [-> | ->]] Hc Hw.
  - simpl append. simpl JS.trimStart. rewrite Hw. split; [reflexivity|].
    apply strip_sign_keeps. exact Hc.
  - split; reflexivity.
  - split; reflexivity.
Qed.

Lemma parse_digits_started (radix : N) (s : string) (a : N) :
  exists v, JS.parse_digits radix s (Some a) = Some v.
Proof.
  revert a; induction s as [|c s IH]; intros a; simpl; [exists a; reflexivity|].
  destruct (JS.digit_value radix c); [apply IH | exists a; reflexivity].
Qed.

(** [parse_digits] reads something exactly when the text begins with a
    digit of the radix. *)
Lemma parse_digits_None (radix : N) (s : string) :
  JS.parse_digits radix s None = None <->
  match s with
  | String c _ => JS.digit_value radix c = None
  | EmptyString => True
  end.
Proof.
  destruct s as [|c r]; simpl; [tauto|].
  destruct (JS.digit_value radix c) as [d|]; [|tauto].
  destruct (parse_digits_started radix r (radix * 0 + d)) as (v & ->).
  split; discriminate.
Qed.

Lemma parse_digits_decimal (rest : string) :
  begins_with_decimal rest = false ->
  forall (ds : string) (acc : option N),
  all_decimal ds = true -> ds <> "" \/ acc <> None ->
  JS.parse_digits 10 (ds ++ rest) acc = Some (decimal_value_from (read_so_far acc) ds).
Proof.
  intros Hrest. induction ds as [|c ds IH]; intros acc Hds Hacc.
  - destruct Hacc as [H | H]; [congruence|].
    destruct acc as [a|]; [|congruence]. simpl.
    destruct rest as [|x r]; [reflexivity|]. simpl in Hrest. simpl.
    rewrite digit_value_decimal, Hrest. reflexivity.
  - simpl in Hds. apply andb_true_iff in Hds. destruct Hds as [Hc Hds].
    cbn [append JS.parse_digits]. rewrite digit_value_decimal, Hc.
    fold (read_so_far acc).
    rewrite IH; [reflexivity | exact Hds | right; discriminate].
Qed.

Lemma hex_digit_is_plain (sg : string) (x : ascii) (r : string) :
  is_sign sg ->
  JS.trimStart (sg ++ String "0" (String x r)) = sg ++ String "0" (String x r) /\
  JS.strip_sign (sg ++ String "0" (String x r)) = (sign_value sg, String "0" (String x r)).
Proof. intros [-> | [-> | ->]]; split; reflexivity. Qed.

(** [parseInt] gives [NaN] exactly when the text has no numeral at its
    head. *)
Lemma parseInt_NaN_iff (s : string) :
  JS.parseInt s = JS.NaN <-> ~ has_leading_numeral s.
Proof.
  split.
  - intros Hnan Hnum. destruct Hnum as [w sg c rest Hw Hsg Hc Hx -> | w sg x c rest Hw Hsg Hx Hc ->].
    + destruct (decimal_is_plain c Hc) as [Hcw Hcs].
      destruct (strip_sign_of_sign sg c rest Hsg Hcs Hcw) as [Ht Hs].
      unfold JS.parseInt in Hnan. rewrite trimStart_white, Ht, Hs in Hnan by exact Hw.
      rewrite strip_prefix_spec, Hx in Hnan.
      destruct (JS.parse_digits 10 (String c rest) None) eqn:Hv; [discriminate|].
      apply parse_digits_None in Hv. rewrite digit_value_decimal, Hc in Hv.
      discriminate.
    + destruct (hex_digit_is_plain sg x (String c rest) Hsg) as [Ht Hs].
      unfold JS.parseInt in Hnan. rewrite trimStart_white, Ht, Hs in Hnan by exact Hw.
      assert (JS.strip_prefix (String "0" (String x (String c rest)))
              = (16%N, String c rest)) as Hp by (destruct Hx as [-> | ->]; reflexivity).
      rewrite Hp in Hnan.
      destruct (JS.parse_digits 16 (String c rest) None) eqn:Hv; [discriminate|].
      apply parse_digits_None in Hv.
      pose proof (digit_value_hexadecimal c) as Hd. rewrite Hv, Hc in Hd.
      discriminate.
  - intros Hnot. destruct (JS.parseInt s) as [|z] eqn:Hp; [reflexivity|].
    exfalso. apply Hnot. unfold JS.parseInt in Hp.
    destruct (trimStart_split s) as (w & Hw & Hs & _).
    destruct (strip_sign_split (JS.trimStart s)) as (sg & Hsg & Ht & _ & _).
    destruct (JS.strip_sign (JS.trimStart s)) as [sign t1]. cbn [snd] in Ht.
    rewrite strip_prefix_spec in Hp.
    destruct (hex_prefix t1) eqn:Hx.
    + destruct (hex_prefix_true t1 Hx) as (x & r & Hxx & ->).
      cbn [JS.drop] in Hp.
      destruct (JS.parse_digits 16 r None) as [v|] eqn:Hv; [|discriminate].
      destruct r as [|c rest]; [discriminate|].
      assert (is_hex_digit c = true) as Hc.
      { rewrite <- digit_value_hexadecimal. simpl in Hv.
        destruct (JS.digit_value 16 c); [reflexivity | discriminate]. }
      apply (leading_hexadecimal s w sg x c rest Hw Hsg Hxx Hc).
      rewrite Hs at 1. rewrite Ht. reflexivity.
    + destruct (JS.parse_digits 10 t1 None) as [v|] eqn:Hv; [|discriminate].
      destruct t1 as [|c rest]; [discriminate|].
      assert (is_decimal_digit c = true) as Hc.
      { simpl in Hv. rewrite digit_value_decimal in Hv.
        destruct (is_decimal_digit c); [reflexivity | discriminate]. }
      apply (leading_decimal s w sg c rest Hw Hsg Hc Hx).
      rewrite Hs at 1. rewrite Ht. reflexivity.
Qed.

(** [parseInt] reads the decimal digits at the head of the text, and
    stops at the first character that is not one. *)
Lemma parseInt_leading_decimal (w sg ds rest : string) :
  white w = true -> is_sign sg -> ds <> "" -> all_decimal ds = true ->
  hex_prefix (ds ++ rest) = false -> begins_with_decimal rest = false ->
  JS.parseInt (w ++ sg ++ ds ++ rest)
  = JS.Int (sign_value sg * Z.of_N (decimal_value ds)).
Proof.
  intros Hw Hsg Hne Hds Hx Hrest.
  destruct ds as [|c ds']; [congruence|].
  pose proof Hds as Hds0. simpl in Hds0. apply andb_true_iff in Hds0.
  destruct Hds0 as [Hc _].
  destruct (decimal_is_plain c Hc) as [Hcw Hcs].
  destruct (strip_sign_of_sign sg c (ds' ++ rest) Hsg Hcs Hcw) as [Ht Hs].
  unfold JS.parseInt. cbn [append] in *. rewrite trimStart_white, Ht, Hs by exact Hw.
  rewrite strip_prefix_spec, Hx.
  change (String c (ds' ++ rest)) with (String c ds' ++ rest).
  rewrite (parse_digits_decimal rest Hrest (String c ds') None Hds)
    by (left; discriminate).
  reflexivity.
Qed.

Lemma reads_numeral_parseInt (s : string) : reads_numeral (JS.parseInt s) s.
Proof.
  split; [apply parseInt_NaN_iff|].
  intros w sg ds rest -> Hw Hsg Hne Hds Hx Hrest.
  apply parseInt_leading_decimal; assumption.
Qed.

Lemma no_numeral_in_nothing : ~ has_leading_numeral "".
Proof. apply parseInt_NaN_iff. reflexivity. Qed.




(** C4, as the code has it.  The time fields of a created entry are read
    from [stats.ctime], the time of the last status change: the month is
    its month counted from 1, the day, the hour and the minute are its
    day, hour and minute. *)
Theorem create_reads_ctime (new_Mode : Stats -> Mode) (_resolver : IDResolver)
    (dir filename : string) (stats : Stats) :
  let E := FileItem.create new_Mode _resolver dir filename stats in
  _month E = JS.add (getMonth (ctime stats)) (JS.Int 1) /\
  _day E = getDate (ctime stats) /\
  _hour E = getHours (ctime stats) /\
  _min E = getMinutes (ctime stats).
Proof. repeat split. Qed.

(** C4 as it is worded fails on a file whose status changed after its
    last modification: none of the four fields is that of [stats.mtime]. *)
Lemma create_reads_mtime_counterexample :
  let E := FileItem.create sample_Mode sample_resolver "/tmp" "x" sample_stats in
  _month E <> JS.add (getMonth (mtime sample_stats)) (JS.Int 1) /\
  _day E <> getDate (mtime sample_stats) /\
  _hour E <> getHours (mtime sample_stats) /\
  _min E <> getMinutes (mtime sample_stats).
Proof. repeat split; discriminate. Qed.

(** ** The selection loop *)

Lemma length_assign (i : nat) (x : string) (buffers : list string) :
  List.length (assign i x buffers) = List.length buffers.
Proof.
  revert i; induction buffers as [|b rest IH]; intros [|i]; simpl; try reflexivity.
  rewrite IH. reflexivity.
Qed.

Lemma nth_error_assign (i k : nat) (x : string) (buffers : list string) :
  i < List.length buffers ->
  nth_error (assign i x buffers) k = if (k =? i)%nat then Some x else nth_error buffers k.
Proof.
  revert i k; induction buffers as [|b rest IH]; intros i k H; simpl in H; [lia|].
  destruct i as [|i], k as [|k]; simpl; try reflexivity.
  apply IH. lia.
Qed.

(** The loop over a range inside the buffer returns; it keeps the length
    of the buffer, rewrites the lines of the range with [select_line] and
    leaves the others as they were. *)
Lemma selectRange_loop_spec (dir : string) (value allow : bool) (n : nat) :
  forall (i : nat) (buffers : list string),
  n = 0 \/ i + n <= List.length buffers ->
  exists buffers',
    selectRange_loop dir value allow n i buffers = Returned tt buffers' /\
    List.length buffers' = List.length buffers /\
    forall k, nth_error buffers' k =
              if in_range i n k
              then option_map (select_line dir value allow) (nth_error buffers k)
              else nth_error buffers k.
Proof.
  induction n as [|n IH]; intros i buffers Hn.
  - exists buffers. repeat split. intros k. unfold in_range.
    destruct (Nat.leb_spec i k), (Nat.ltb_spec k (i + 0)); simpl; try reflexivity; lia.
  - destruct Hn as [Hn|Hn]; [discriminate|].
    destruct (nth_error buffers i) as [text|] eqn:Hi;
      [|apply nth_error_None in Hi; lia].
    cbn [selectRange_loop]. rewrite Hi.
    fold (is_dot_entry (parseLine dir text)).
    destruct (is_dot_entry (parseLine dir text) && negb allow) eqn:Hdot.
    + destruct (IH (S i) buffers) as (buffers' & Hrun & Hlen & Hnth); [right; lia|].
      exists buffers'. repeat split; try assumption.
      intros k. rewrite Hnth. unfold in_range.
      destruct (Nat.eq_dec k i) as [->|Hk].
      * replace (S i <=? i)%nat with false by (symmetry; apply Nat.leb_gt; lia).
        replace (i <=? i)%nat with true by (symmetry; apply Nat.leb_le; lia).
        replace (i <? i + S n)%nat with true by (symmetry; apply Nat.ltb_lt; lia).
        simpl. rewrite Hi. simpl. unfold select_line. rewrite Hdot. reflexivity.
      * destruct (Nat.leb_spec (S i) k), (Nat.leb_spec i k),
          (Nat.ltb_spec k (S i + n)), (Nat.ltb_spec k (i + S n));
          simpl; try reflexivity; lia.
    + rewrite line_eq.
      assert (i < List.length buffers) as Hlt by lia.
      destruct (IH (S i) (assign i (line_text (FileItem.select value (parseLine dir text))) buffers))
        as (buffers' & Hrun & Hlen & Hnth); [right; rewrite length_assign; lia|].
      exists buffers'. rewrite length_assign in Hlen. repeat split; try assumption.
      intros k. rewrite Hnth. unfold in_range. rewrite nth_error_assign by exact Hlt.
      destruct (Nat.eq_dec k i) as [->|Hk].
      * replace (S i <=? i)%nat with false by (symmetry; apply Nat.leb_gt; lia).
        replace (i <=? i)%nat with true by (symmetry; apply Nat.leb_le; lia).
        replace (i <? i + S n)%nat with true by (symmetry; apply Nat.ltb_lt; lia).
        rewrite Nat.eqb_refl. simpl. rewrite Hi. simpl.
        unfold select_line. rewrite Hdot. reflexivity.
      * replace (k =? i)%nat with false by (symmetry; apply Nat.eqb_neq; exact Hk).
        destruct (Nat.leb_spec (S i) k), (Nat.leb_spec i k),
          (Nat.ltb_spec k (S i + n)), (Nat.ltb_spec k (i + S n));
          simpl; try reflexivity; lia.
Qed.

(** [selectRange] over a range that ends inside the buffer. *)
Lemma selectRange_spec (dir : string) (lines : list string) (start end_ : nat)
    (value allow : bool) :
  end_ <= List.length lines ->
  exists lines',
    selectRange dir lines start end_ value allow = Returned tt lines' /\
    List.length lines' = List.length lines /\
    forall k, nth_error lines' k =
              if in_range start (end_ - start) k
              then option_map (select_line dir value allow) (nth_error lines k)
              else nth_error lines k.
Proof.
  intros H. apply selectRange_loop_spec.
  destruct (Nat.le_gt_cases end_ start); [left | right]; lia.
Qed.

(** Reading past the end of the buffer throws. *)
Lemma selectRange_past_the_end (dir : string) (lines : list string) (start end_ : nat)
    (value allow : bool) :
  start < end_ -> List.length lines < end_ ->
  exists lines', selectRange dir lines start end_ value allow = Threw TypeError lines'.
Proof.
  intros Hs He. unfold selectRange.
  remember (end_ - start) as n eqn:Hn.
  assert (0 < n /\ List.length lines < start + n) as H by lia. clear Hn Hs He.
  revert start lines H. induction n as [|n IH]; intros start lines [H0 H]; [lia|].
  cbn [selectRange_loop].
  destruct (nth_error lines start) as [text|] eqn:Hi; [|eexists; reflexivity].
  assert (start < List.length lines) as Hlt by (apply nth_error_Some; congruence).
  destruct (_ && negb allow).
  - apply IH. lia.
  - rewrite line_eq. apply IH. rewrite length_assign. lia.
Qed.

(** Whatever the range, the loop ends, by returning or by throwing; it
    keeps the length of the buffer, and every line left behind is either
    the line that was there or, inside the range, its [select_line]. *)
Lemma selectRange_loop_frame (dir : string) (value allow : bool) (n : nat) :
  forall (i : nat) (buffers : list string),
  exists buffers',
    left_behind (selectRange_loop dir value allow n i buffers) = Some buffers' /\
    List.length buffers' = List.length buffers /\
    forall k,
      nth_error buffers' k = nth_error buffers k \/
      (i <= k < i + n /\
       exists text, nth_error buffers k = Some text /\
                    nth_error buffers' k = Some (select_line dir value allow text)).
Proof.
  induction n as [|n IH]; intros i buffers.
  - exists buffers. repeat split. intros k. left. reflexivity.
  - cbn [selectRange_loop].
    destruct (nth_error buffers i) as [text|] eqn:Hi.
    2:{ exists buffers. repeat split. intros k. left. reflexivity. }
    assert (i < List.length buffers) as Hlt by (apply nth_error_Some; congruence).
    fold (is_dot_entry (parseLine dir text)).
    destruct (is_dot_entry (parseLine dir text) && negb allow) eqn:Hdot.
    + destruct (IH (S i) buffers) as (buffers' & Hrun & Hlen & Hnth).
      exists buffers'. repeat split; try assumption.
      intros k. destruct (Hnth k) as [H | (Hk & t & Ht & Ht')]; [left; exact H|].
      right. split; [lia|]. exists t. split; assumption.
    + rewrite line_eq.
      destruct (IH (S i) (assign i (line_text (FileItem.select value (parseLine dir text))) buffers))
        as (buffers' & Hrun & Hlen & Hnth).
      exists buffers'. rewrite length_assign in Hlen. repeat split; try assumption.
      intros k. specialize (Hnth k). rewrite nth_error_assign in Hnth by exact Hlt.
      destruct (Nat.eq_dec k i) as [->|Hk].
      * rewrite Nat.eqb_refl in Hnth.
        right. split; [lia|]. exists text. split; [exact Hi|].
        destruct Hnth as [H | (Hk & _)]; [|lia].
        rewrite H. unfold select_line. rewrite Hdot. reflexivity.
      * apply Nat.eqb_neq in Hk. rewrite Hk in Hnth. apply Nat.eqb_neq in Hk.
        destruct Hnth as [H | (Hk' & t & Ht & Ht')]; [left; exact H|].
        right. split; [lia|]. exists t. split; assumption.
Qed.

Lemma select_line_dot (dir : string) (value : bool) (text : string) :
  JS.substringFrom text 52 = "." \/ JS.substringFrom text 52 = ".." ->
  select_line dir value false text = text.
Proof.
  intros H. unfold select_line, is_dot_entry, fileName, parseLine. cbn [_filename].
  destruct H as [-> | ->]; reflexivity.
Qed.

(** C8. A line whose name, the text from column 52 on, is [.] or [..] is
    left as it is by [selectRange] when dot entries are not allowed,
    whatever the range and for both values of the flag: the call ends, and
    the line is in the buffer it leaves behind; when the range ends inside
    the buffer the call returns. *)
Theorem dot_entries_are_kept (dir : string) (lines : list string) (start end_ : nat)
    (value : bool) (k : nat) (text : string) :
  nth_error lines k = Some text ->
  JS.substringFrom text 52 = "." \/ JS.substringFrom text 52 = ".." ->
  exists lines',
    left_behind (selectRange dir lines start end_ value false) = Some lines' /\
    List.length lines' = List.length lines /\
    nth_error lines' k = Some text /\
    (end_ <= List.length lines ->
     selectRange dir lines start end_ value false = Returned tt lines').
Proof.
  intros Hk Hdot. unfold selectRange.
  destruct (selectRange_loop_frame dir value false (end_ - start) start lines)
    as (lines' & Hrun & Hlen & Hnth).
  exists lines'. repeat split; try assumption.
  - destruct (Hnth k) as [H | (_ & t & Ht & Ht')]; [congruence|].
    rewrite Ht'. rewrite Hk in Ht. injection Ht as <-.
    rewrite select_line_dot by exact Hdot. reflexivity.
  - intros He.
    destruct (selectRange_spec dir lines start end_ value false He) as (l2 & Hl2 & _).
    unfold selectRange in Hl2. rewrite Hl2 in Hrun |- *. simpl in Hrun. congruence.
Qed.

Lemma dot_entries_are_kept_witness :
  exists lines',
    selectRange "/tmp" sample_dot_buffer 1 3 true false = Returned tt lines' /\
    nth_error lines' 1 = Some sample_dot_line.
Proof.
  destruct (dot_entries_are_kept "/tmp" sample_dot_buffer 1 3 true 1 sample_dot_line
              eq_refl (or_introl eq_refl)) as (lines' & _ & _ & Hk & Hret).
  exists lines'. split; [apply Hret; simpl; lia | exact Hk].
Defined.

(** A range that starts at line 1 or below leaves the header alone. *)
Lemma selectRange_keeps_header (dir : string) (lines : list string) (start end_ : nat)
    (value allow : bool) (lines' : list string) :
  1 <= start ->
  left_behind (selectRange dir lines start end_ value allow) = Some lines' ->
  nth_error lines' 0 = nth_error lines 0.
Proof.
  intros Hs Hrun. unfold selectRange in Hrun.
  destruct (selectRange_loop_frame dir value allow (end_ - start) start lines)
    as (l2 & Hl2 & _ & Hnth).
  rewrite Hl2 in Hrun. injection Hrun as <-.
  destruct (Hnth 0) as [H | (Hk & _)]; [exact H | lia].
Qed.

(** X14. With no text selected, on the header or on an entry, [selectFiles]
    leaves the header alone: the buffer it leaves behind is the one it
    found, or begins with the first line of the document. *)
Lemma selectFiles_keeps_header_without_selection
    (at_ : vscode.TextEditor) (value : bool) (this this' : DiredProvider)
    (log : list effect) :
  vscode.isEmpty (vscode.selection at_) = true ->
  left_behind (selectFiles (Some at_) value this) = Some (this', log) ->
  this' = this \/
  nth_error (_buffers this') 0 = Some (vscode.firstLine (vscode.document at_)).
Proof.
  intros Hempty Hrun. unfold selectFiles in Hrun. cbn [dirname] in Hrun.
  destruct (_ =? "") eqn:Hdir; [left; simpl in Hrun; congruence|].
  rewrite Hempty in Hrun. right.
  assert (forall start end_ allow l,
            1 <= start ->
            left_behind (selectRange
                           (JS.substring (vscode.firstLine (vscode.document at_)) 0
                              (length (vscode.firstLine (vscode.document at_)) - 1))
                           (vscode.lines (vscode.document at_)) start end_ value allow)
            = Some l ->
            nth_error l 0 = Some (vscode.firstLine (vscode.document at_))) as Hkeep.
  { intros start end_ allow l Hs Hl.
    apply selectRange_keeps_header in Hl; [|exact Hs]. rewrite Hl. reflexivity. }
  destruct (vscode.line (vscode.active (vscode.selection at_)) =? 0)%nat eqn:Hcursor.
  - destruct (selectRange _ _ 1 _ value false) as [u l|e l|] eqn:Hsel;
      simpl in Hrun; try discriminate; injection Hrun as <- _;
      cbn [_buffers set_buffers];
      apply (Hkeep 1 (vscode.lineCount (vscode.document at_)) false); try lia;
      rewrite Hsel; reflexivity.
  - apply Nat.eqb_neq in Hcursor.
    destruct (selectRange _ _ _ _ value true) as [u l|e l|] eqn:Hsel;
      simpl in Hrun; try discriminate; injection Hrun as <- _;
      cbn [_buffers set_buffers];
      apply (Hkeep (vscode.line (vscode.active (vscode.selection at_)))
               (vscode.line (vscode.active (vscode.selection at_)) + 1) true);
      try lia; rewrite Hsel; reflexivity.
Qed.

(** C3 fails on the code.  With lines 0 and 1 of the document selected,
    [selectFiles] runs its loop from index 0: the header [/tmp:] is decoded
    as if it were an entry and written back as a line of [NaN] fields. *)
Theorem selection_from_line_0_rewrites_header :
  selectFiles (Some sample_editor) true sample_provider =
    Returned tt
      (mkDiredProvider true true
         [sample_header_selected; sample_directory_selected; sample_file_line],
       [onDidChange_fire]) /\
  selectRange "/tmp" sample_buffer 0 2 true false =
    Returned tt [sample_header_selected; sample_directory_selected; sample_file_line] /\
  nth_error sample_buffer 0 <> Some sample_header_selected.
Proof. repeat split. discriminate. Qed.

(** C2 fails on the code.  Selecting the line of a directory decodes its
    name with the slash and renders it with one more: the second
    application does not leave the result of the first as it is. *)
Theorem selecting_twice_appends_a_second_slash :
  selectRange "/tmp" sample_buffer 1 2 true false =
    Returned tt ["/tmp:"; sample_directory_selected; sample_file_line] /\
  selectRange "/tmp" ["/tmp:"; sample_directory_selected; sample_file_line] 1 2 true false =
    Returned tt ["/tmp:"; sample_directory_selected_twice; sample_file_line] /\
  sample_directory_selected <> sample_directory_selected_twice.
Proof. repeat split. discriminate. Qed.

(** ** Selecting the lines of files twice *)

Lemma valid_select (value : bool) (E : FileItem) : valid E -> valid (FileItem.select value E).
Proof. intros [H1 H2 H3 H4 H5]. constructor; assumption. Qed.

Lemma column8_idempotent (s : string) : column8 (column8 s) = column8 s.
Proof. apply column8_exact. apply length_column8. Qed.

Lemma line_text_of_decoded (value : bool) (X : FileItem) :
  _isDirectory X = false ->
  line_text (FileItem.select value (as_decoded X)) = line_text (FileItem.select value X).
Proof.
  intros H. unfold line_text, rendered_name, as_decoded, FileItem.select.
  cbn [_selected _modeStr _username _groupname _size _month _day _hour _min
       _isDirectory _filename str].
  unfold rendered_name. cbn [_isDirectory _filename].
  rewrite !column8_idempotent, H. reflexivity.
Qed.

(** On a line that decodes to a valid file, a second turn of the loop
    changes nothing. *)
Lemma select_line_twice (dir : string) (value allow : bool) (text : string) :
  decodes_to_valid_file dir text ->
  select_line dir value allow (select_line dir value allow text) =
  select_line dir value allow text.
Proof.
  intros (Hv & Hs & Hd). unfold select_line at 2.
  destruct (is_dot_entry (parseLine dir text) && negb allow) eqn:Hdot.
  - unfold select_line. rewrite Hdot. reflexivity.
  - unfold select_line.
    pose proof (decode_line_text (FileItem.select value (parseLine dir text))
                  (valid_select value _ Hv) Hs) as Hdec.
    change (_dirname (FileItem.select value (parseLine dir text))) with dir in Hdec.
    rewrite Hdec.
    assert (is_dot_entry (as_decoded (FileItem.select value (parseLine dir text)))
            = is_dot_entry (parseLine dir text)) as ->.
    { unfold is_dot_entry, fileName, as_decoded, rendered_name.
      cbn [_filename FileItem.select _isDirectory]. rewrite Hd. reflexivity. }
    rewrite Hdot.
    rewrite line_text_of_decoded by exact Hd. reflexivity.
Qed.

(** X13. The selection is idempotent on the lines of files: over a range that
    ends inside the buffer and whose lines decode to valid entries that
    are not directories, a second [selectRange] returns what the first
    returned. *)
Lemma selectRange_idempotent_on_files (dir : string) (lines : list string)
    (start end_ : nat) (value allow : bool) :
  end_ <= List.length lines ->
  (forall k text, start <= k < end_ -> nth_error lines k = Some text ->
                  decodes_to_valid_file dir text) ->
  exists once,
    selectRange dir lines start end_ value allow = Returned tt once /\
    selectRange dir once start end_ value allow = Returned tt once.
Proof.
  intros He Hfiles.
  destruct (selectRange_spec dir lines start end_ value allow He)
    as (once & Hrun1 & Hlen1 & Hnth1).
  exists once. split; [exact Hrun1|].
  destruct (selectRange_spec dir once start end_ value allow) as (twice & Hrun2 & _ & Hnth2);
    [lia|].
  rewrite Hrun2. f_equal. apply nth_error_ext. intros k.
  rewrite Hnth2, Hnth1.
  destruct (in_range start (end_ - start) k) eqn:Hk; [|reflexivity].
  destruct (nth_error lines k) as [text|] eqn:Htext; [|reflexivity].
  simpl. f_equal. apply select_line_twice. apply (Hfiles k); [|exact Htext].
  unfold in_range in Hk. apply andb_true_iff in Hk. destruct Hk as [H1 H2].
  apply Nat.leb_le in H1. apply Nat.ltb_lt in H2. lia.
Qed.

(** ** Reading a directory *)

Lemma substring_0_1_dot (name : string) :
  (JS.substring name 0 1 =? ".") = starts_with_dot name.
Proof.
  destruct name as [|c rest]; [reflexivity|].
  unfold JS.substring. simpl.
  destruct c as [[] [] [] [] [] [] [] []]; reflexivity.
Qed.

Lemma map_line_eq (files : list FileItem) : map_line files = Some (map line_text files).
Proof.
  induction files as [|f rest IH]; [reflexivity|].
  simpl. rewrite line_eq, IH. reflexivity.
Qed.

Section ReadDir.
Variable fs : FileSystem.
Variable path_join : string -> string -> string.
Variable new_Mode : Stats -> Mode.
Variable _resolver : IDResolver.
Variable this : DiredProvider.
Variable dirname : string.

Local Abbreviation listed name :=
  (stat_succeeds fs path_join dirname name && is_listed (_show_dot_files this) name).

Lemma readDir_keep_created (filename : string) (stat : Stats) :
  readDir_keep this (Some (FileItem.create new_Mode _resolver dirname filename stat))
  = is_listed (_show_dot_files this) filename.
Proof.
  unfold readDir_keep, is_listed, fileName, FileItem.create. cbn [_filename].
  rewrite substring_0_1_dot.
  destruct (filename =? ".."), (filename =? "."), (_show_dot_files this); reflexivity.
Qed.

Lemma readDir_files_names (files : list string) :
  map fileName
    (items (filter (readDir_keep this)
              (map fst (map (readDir_stat fs path_join new_Mode _resolver dirname) files))))
  = filter (fun name => listed name) files.
Proof.
  induction files as [|name rest IH]; [reflexivity|].
  cbn [map filter].
  assert (fst (readDir_stat fs path_join new_Mode _resolver dirname name) =
          match statSync fs (path_join dirname name) with
          | inr stat => Some (FileItem.create new_Mode _resolver dirname name stat)
          | inl _ => None
          end) as ->
    by (unfold readDir_stat; destruct (statSync fs (path_join dirname name)); reflexivity).
  unfold stat_succeeds at 1.
  destruct (statSync fs (path_join dirname name)) as [err|stat].
  - cbn [readDir_keep andb]. exact IH.
  - rewrite readDir_keep_created. cbn [andb].
    destruct (is_listed (_show_dot_files this) name); [|exact IH].
    unfold items in *. cbn [flat_map app map]. f_equal. exact IH.
Qed.

Lemma readDir_files_log (files : list string) :
  List.concat (map snd (map (readDir_stat fs path_join new_Mode _resolver dirname) files))
  = stat_messages fs path_join dirname files.
Proof.
  induction files as [|name rest IH]; [reflexivity|].
  cbn [map List.concat stat_messages flat_map]. unfold readDir_stat at 1.
  destruct (statSync fs (path_join dirname name)); cbn [snd];
    f_equal; exact IH.
Qed.

(** [readDir] returns as soon as the directory can be listed: it gives
    the entries that could be examined and are to be shown, in the order of
    the directory, and one message for each entry that could not. *)
Lemma readDir_spec (names : list string) :
  readdirSync fs dirname = inr names ->
  exists files,
    readDir fs path_join new_Mode _resolver this dirname
    = Returned files (stat_messages fs path_join dirname ("." :: ".." :: names)) /\
    map fileName files = filter (fun name => listed name) names.
Proof.
  intros H. unfold readDir. rewrite H.
  eexists. split; [rewrite readDir_files_log; reflexivity|].
  rewrite readDir_files_names. cbn [app filter].
  unfold is_listed. simpl. rewrite !andb_false_r. reflexivity.
Qed.

Lemma createBuffer_spec (names : list string) (st : Stats) :
  lstatSync fs dirname = inr st -> stats_isDirectory st = true ->
  readdirSync fs dirname = inr names ->
  exists files buffers,
    createBuffer fs path_join new_Mode _resolver this dirname
    = Returned buffers
        (set_buffers buffers this,
         stat_messages fs path_join dirname ("." :: ".." :: names)) /\
    buffers = (dirname ++ ":") :: map line_text files /\
    map fileName files = filter (fun name => listed name) names.
Proof.
  intros Hl Hd Hr. destruct (readDir_spec names Hr) as (files & Hrun & Hnames).
  exists files. eexists. unfold createBuffer. rewrite Hl, Hd, Hrun, map_line_eq.
  repeat split. exact Hnames.
Qed.

End ReadDir.

Lemma is_listed_true (show_dot_files : bool) (name : string) :
  is_listed show_dot_files name = true <->
  name <> "." /\ name <> ".." /\ (show_dot_files = true \/ starts_with_dot name = false).
Proof.
  unfold is_listed. rewrite !andb_true_iff, orb_true_iff, !negb_true_iff, !String.eqb_neq.
  tauto.
Qed.

(** C6. The listing never shows [.] nor [..], whatever [showDotFiles];
    when dot files are hidden it shows no name that begins with a dot; it
    shows every other entry that could be examined.  For a directory that
    holds [a.txt] and [.hidden], read as [., .., a.txt, .hidden], with dot
    files hidden, the listing is [a.txt] alone.  The body of the buffer is
    made of the lines of the listing. *)
Theorem listing_hides_dot_entries
    (fs : FileSystem) (path_join : string -> string -> string)
    (new_Mode : Stats -> Mode) (_resolver : IDResolver)
    (this : DiredProvider) (dirname : string) (names : list string) :
  readdirSync fs dirname = inr names ->
  exists files log,
    readDir fs path_join new_Mode _resolver this dirname = Returned files log /\
    (forall name, In name (map fileName files) ->
       name <> "." /\ name <> ".." /\
       (_show_dot_files this = false -> starts_with_dot name = false)) /\
    (forall name, In name names -> stat_succeeds fs path_join dirname name = true ->
       name <> "." -> name <> ".." ->
       _show_dot_files this = true \/ starts_with_dot name = false ->
       In name (map fileName files)) /\
    (names = ["a.txt"; ".hidden"] -> _show_dot_files this = false ->
     stat_succeeds fs path_join dirname "a.txt" = true ->
     map fileName files = ["a.txt"]) /\
    (forall st, lstatSync fs dirname = inr st -> stats_isDirectory st = true ->
     createBuffer fs path_join new_Mode _resolver this dirname =
     Returned ((dirname ++ ":") :: map line_text files)
       (set_buffers ((dirname ++ ":") :: map line_text files) this, log)).
Proof.
  intros Hr.
  destruct (readDir_spec fs path_join new_Mode _resolver this dirname names Hr)
    as (files & Hrun & Hnames).
  exists files. eexists. split; [exact Hrun|]. rewrite Hnames.
  split; [|split; [|split]].
  - intros name H. apply filter_In in H. destruct H as [_ H].
    apply andb_true_iff in H. destruct H as [_ H]. apply is_listed_true in H.
    destruct H as (Hd & Hdd & Hshow). repeat split; try assumption.
    intros Hhide. destruct Hshow as [Hshow | Hshow]; congruence.
  - intros name Hin Hstat Hd Hdd Hshow. apply filter_In. split; [exact Hin|].
    rewrite Hstat. apply is_listed_true. tauto.
  - intros -> Hshow Hstat. cbn [filter]. rewrite Hstat, Hshow.
    destruct (stat_succeeds fs path_join dirname ".hidden"); reflexivity.
  - intros st Hl Hd. unfold createBuffer. rewrite Hl, Hd, Hrun, map_line_eq. reflexivity.
Qed.

Lemma listing_hides_dot_entries_witness :
  exists files log,
    readDir sample_fs_scenario sample_path_join sample_Mode sample_resolver
      sample_hiding_provider "/tmp" = Returned files log /\
    map fileName files = ["a.txt"].
Proof.
  destruct (listing_hides_dot_entries sample_fs_scenario sample_path_join sample_Mode
              sample_resolver sample_hiding_provider "/tmp" ["a.txt"; ".hidden"] eq_refl)
    as (files & log & Hrun & _ & _ & Hscenario & _).
  exists files, log. split; [exact Hrun|].
  apply Hscenario; reflexivity.
Defined.

(** C9. When the directory can be listed and one of its entries cannot be
    examined, [readDir] still returns: that entry is not in the listing, a
    message naming its path is shown, every listed name is an entry of the
    directory, and every other entry that can be examined and is to be
    shown is in the listing. *)
Theorem stat_failure_drops_one_entry
    (fs : FileSystem) (path_join : string -> string -> string)
    (new_Mode : Stats -> Mode) (_resolver : IDResolver)
    (this : DiredProvider) (dirname : string) (names : list string)
    (bad : string) (err : exn) :
  readdirSync fs dirname = inr names ->
  In bad names ->
  statSync fs (path_join dirname bad) = inl err ->
  exists files log,
    readDir fs path_join new_Mode _resolver this dirname = Returned files log /\
    ~ In bad (map fileName files) /\
    In (showErrorMessage
          ("Could not get stat of " ++ path_join dirname bad ++ ": " ++ exn_str err)) log /\
    (forall name, In name (map fileName files) -> In name names) /\
    (forall name, In name names ->
       stat_succeeds fs path_join dirname name = true ->
       is_listed (_show_dot_files this) name = true ->
       In name (map fileName files)).
Proof.
  intros Hr Hin Hbad.
  destruct (readDir_spec fs path_join new_Mode _resolver this dirname names Hr)
    as (files & Hrun & Hnames).
  exists files. eexists. split; [exact Hrun|]. rewrite Hnames. repeat split.
  - intros H. apply filter_In in H. destruct H as [_ H].
    unfold stat_succeeds in H. rewrite Hbad in H. discriminate.
  - unfold stat_messages. apply in_flat_map. exists bad. split.
    + right. right. exact Hin.
    + rewrite Hbad. left. reflexivity.
  - intros name H. apply filter_In in H. tauto.
  - intros name H Hstat Hlisted. apply filter_In. split; [exact H|].
    rewrite Hstat, Hlisted. reflexivity.
Qed.

Lemma stat_failure_drops_one_entry_witness :
  exists files log,
    readDir sample_fs sample_path_join sample_Mode sample_resolver
      sample_provider "/tmp" = Returned files log /\
    ~ In "broken" (map fileName files) /\
    In (showErrorMessage "Could not get stat of /tmp/broken: Error: ENOENT") log /\
    In "a.txt" (map fileName files) /\ In ".hidden" (map fileName files).
Proof.
  destruct (stat_failure_drops_one_entry sample_fs sample_path_join sample_Mode
              sample_resolver sample_provider "/tmp" ["a.txt"; ".hidden"; "broken"]
              "broken" (FsError "ENOENT") eq_refl
              (or_intror (or_intror (or_introl eq_refl))) eq_refl)
    as (files & log & Hrun & Hout & Hmsg & _ & Hin).
  exists files, log. repeat split; try assumption.
  - apply Hin; [left; reflexivity | reflexivity | reflexivity].
  - apply Hin; [right; left; reflexivity | reflexivity | reflexivity].
Defined.

(** ** Scenarios of the specification *)

Example line_of_sample_file : FileItem.line sample_file = Some sample_file_line.
Proof. reflexivity. Qed.

Example line_of_sample_directory :
  FileItem.line sample_directory = Some sample_directory_line.
Proof. reflexivity. Qed.

Example pad_size_5 : pad (JS.Int 5) 8 " " = Some "       5".
Proof. reflexivity. Qed.

Example pad_month_3 : pad (JS.Int 3) 2 "0" = Some "03".
Proof. reflexivity. Qed.

Example pad_never_truncates : pad (JS.Int 123456789) 8 " " = Some "123456789".
Proof. reflexivity. Qed.

Example pad_with_empty_string_loops : pad (JS.Int 5) 8 "" = None.
Proof. reflexivity. Qed.

Example owner_of_12_characters_is_cut :
  JS.substring ("administrator" ++ "        ") 0 8 = "administ".
Proof. reflexivity. Qed.

Example undefined_owner_is_spelled_out :
  option_map (fun l => JS.substring l 13 21)
    (FileItem.line (mkFileItem "/tmp" "x" false true None None
                      (JS.Int 0) (JS.Int 1) (JS.Int 1) (JS.Int 0) (JS.Int 0)
                      (Some "-rw-r--r--") false))
  = Some "undefine".
Proof. reflexivity. Qed.

Example toString_42 : JS.toString (JS.Int 42) = "42".
Proof. reflexivity. Qed.

Example toString_negative : JS.toString (JS.Int (-5)) = "-5".
Proof. reflexivity. Qed.

Example parseInt_padded : JS.parseInt "      42" = JS.Int 42.
Proof. reflexivity. Qed.

Example parseInt_zero_padded_03 : JS.parseInt "03" = JS.Int 3.
Proof. reflexivity. Qed.

Example parseInt_hexadecimal : JS.parseInt "0x1F" = JS.Int 31.
Proof. reflexivity. Qed.

Example parseInt_of_NaN : JS.parseInt "NaN" = JS.NaN.
Proof. reflexivity. Qed.

Example substring_swaps_its_indices : JS.substring "abcdef" 4 1 = "bcd".
Proof. reflexivity. Qed.

(** A size of nine digits pushes every later field one column to the
    right, and the line no longer decodes to the entry. *)
Example size_of_nine_digits_shifts_the_columns :
  option_map (parseLine "/tmp")
    (FileItem.line (mkFileItem "/tmp" "x" false true (Some "root    ") (Some "staff   ")
                      (JS.Int 123456789) (JS.Int 1) (JS.Int 5) (JS.Int 9) (JS.Int 3)
                      (Some "-rw-r--r--") false))
  = Some (mkFileItem "/tmp" " x" false true (Some "root    ") (Some "staff   ")
            (JS.Int 12345678) (JS.Int 0) (JS.Int 0) (JS.Int 0) JS.NaN
            (Some "-rw-r--r--") false).
Proof. reflexivity. Qed.

(** Selecting all from the header of [sample_buffer] marks both entries
    and leaves the header. *)
Example select_all_from_header :
  selectFiles
    (Some (vscode.mkTextEditor
             (vscode.mkTextDocument "/tmp:" [sample_file_line; sample_file_line])
             (vscode.mkSelection (vscode.mkPosition 0 3) (vscode.mkPosition 0 3)
                (vscode.mkPosition 0 3))))
    true sample_provider
  = Returned tt
      (mkDiredProvider true true
         ["/tmp:";
          "* -rw-r--r-- root     staff          42 01 05 09:03 x";
          "* -rw-r--r-- root     staff          42 01 05 09:03 x"],
       [onDidChange_fire]).
Proof. reflexivity. Qed.

(** ** More on the codec *)

Lemma length_copies (k : nat) (p : string) : length (copies k p) = k * length p.
Proof.
  induction k as [|k IH]; [reflexivity|].
  simpl. rewrite length_append, IH. lia.
Qed.

(** The loop of [pad] with a non-empty [p]: it ends within the turns it is
    given, having put in front of [s] the least number of copies of [p]
    that reaches [size]. *)
Lemma pad_while_ends (p : string) (size : nat) :
  p <> "" ->
  forall (fuel : nat) (s : string),
  size - length s <= fuel ->
  exists k,
    pad_while fuel s size p = Some (copies k p ++ s) /\
    size <= length (copies k p ++ s) /\
    forall j, j < k -> length (copies j p ++ s) < size.
Proof.
  intros Hp.
  assert (1 <= length p) as Lp by (destruct p; [congruence | simpl; lia]).
  induction fuel as [|fuel IH]; intros s H.
  - exists 0. simpl. destruct (Nat.ltb_spec (length s) size); [lia|].
    repeat split; [lia | intros j Hj; lia].
  - simpl. destruct (Nat.ltb_spec (length s) size) as [L|L].
    + destruct (IH (p ++ s)) as (k & Hrun & Hlen & Hmin).
      { rewrite length_append. lia. }
      exists (S k). cbn [copies]. rewrite append_assoc.
      repeat split; try assumption.
      intros [|j] Hj; [simpl; exact L|].
      cbn [copies]. rewrite append_assoc. apply Hmin. lia.
    + exists 0. simpl. repeat split; [lia | intros j Hj; lia].
Qed.

(** X1. [pad] ends exactly when [p] is not empty or the numeral already
    has [size] characters.  When it ends, its value is the numeral behind
    the least number of copies of [p] that makes it at least [size] long:
    nothing is ever cut. *)
Theorem pad_ends_unless_p_is_empty (num : JS.number) (size : nat) (p : string) :
  (pad num size p = None <-> p = "" /\ length (JS.toString num) < size) /\
  (p <> "" \/ size <= length (JS.toString num) ->
   exists k,
     pad num size p = Some (copies k p ++ JS.toString num) /\
     size <= length (copies k p ++ JS.toString num) /\
     forall j, j < k -> length (copies j p ++ JS.toString num) < size).
Proof.
  unfold pad. rewrite append_nil_r.
  assert (p <> "" \/ size <= length (JS.toString num) ->
          exists k,
            pad_while size (JS.toString num) size p = Some (copies k p ++ JS.toString num) /\
            size <= length (copies k p ++ JS.toString num) /\
            forall j, j < k -> length (copies j p ++ JS.toString num) < size) as Hends.
  { intros [Hp | Hs].
    - apply pad_while_ends; [exact Hp | lia].
    - exists 0. simpl. split; [|split; [exact Hs | intros j Hj; lia]].
      destruct size as [|size]; simpl.
      + reflexivity.
      + destruct (Nat.ltb_spec (length (JS.toString num)) (S size)); [lia | reflexivity]. }
  split; [|exact Hends].
  split.
  - intros Hnone.
    destruct (string_dec p "") as [Hp | Hp];
      [|destruct (Hends (or_introl Hp)) as (k & Hk & _); congruence].
    destruct (Nat.lt_ge_cases (length (JS.toString num)) size) as [L | L];
      [split; assumption|].
    destruct (Hends (or_intror L)) as (k & Hk & _); congruence.
  - intros [-> L]. apply pad_while_empty. exact L.
Qed.

Lemma pad_ends_unless_p_is_empty_witness :
  exists k, pad (JS.Int 7) 5 "ab" = Some (copies k "ab" ++ "7") /\
            5 <= length (copies k "ab" ++ "7").
Proof.
  destruct (pad_ends_unless_p_is_empty (JS.Int 7) 5 "ab") as [_ H].
  destruct H as (k & Hk & Hlen & _); [left; discriminate|].
  exists k. split; [exact Hk | exact Hlen].
Defined.

(** X2. Whatever the entry, its line decodes to its selection flag: the
    marker is read from column 0, which no other field can reach. *)
Theorem selection_flag_round_trip (dir : string) (E : FileItem) :
  exists l, FileItem.line E = Some l /\ _selected (parseLine dir l) = _selected E.
Proof.
  exists (line_text E). split; [apply line_eq|].
  unfold parseLine. cbn [_selected]. unfold line_text, columns.
  rewrite substring_head by apply length_marker.
  apply marker_eqb.
Qed.

Lemma valid_with_dirname (dir : string) (E : FileItem) :
  valid E -> valid (with_dirname dir E).
Proof. intros [H1 H2 H3 H4 H5]. constructor; assumption. Qed.

(** Decoding the line of a valid entry from any directory. *)
Lemma decode_line_text_in (dir : string) (E : FileItem) :
  valid E -> size_fits E ->
  parseLine dir (line_text E) = as_decoded (with_dirname dir E).
Proof.
  intros Hv Hs.
  apply (decode_line_text (with_dirname dir E) (valid_with_dirname dir E Hv) Hs).
Qed.

Lemma columns_append (se m u g sz mo d h mi name tail : string) :
  columns se m u g sz mo d h mi (name ++ tail) =
  columns se m u g sz mo d h mi name ++ tail.
Proof. unfold columns. rewrite !append_assoc. reflexivity. Qed.

(** The line of a decoded entry is the line of the entry, with one more
    slash for a directory. *)
Lemma line_text_decoded (value : bool) (dir : string) (E : FileItem) :
  line_text (FileItem.select value (as_decoded (with_dirname dir E))) =
  line_text (FileItem.select value E) ++ extra_slash E.
Proof.
  unfold line_text, rendered_name, as_decoded, with_dirname, FileItem.select, extra_slash.
  cbn [_selected _modeStr _username _groupname _size _month _day _hour _min
       _isDirectory _filename str].
  unfold rendered_name. cbn [_isDirectory _filename].
  rewrite !column8_idempotent.
  destruct (_isDirectory E).
  - apply columns_append.
  - rewrite append_nil_r. reflexivity.
Qed.

Lemma select_same (E : FileItem) : FileItem.select (_selected E) E = E.
Proof. destruct E. reflexivity. Qed.

(** X3. Decoding the line of a valid entry whose size fits and encoding
    the result gives the line again when the entry is not a directory,
    and the line with one more slash at its end when it is. *)
Theorem line_of_decoded_line (dir : string) (E : FileItem) :
  valid E -> size_fits E ->
  exists l,
    FileItem.line E = Some l /\
    FileItem.line (parseLine dir l) = Some (l ++ (if _isDirectory E then "/" else "")).
Proof.
  intros Hv Hs. exists (line_text E). split; [apply line_eq|].
  rewrite decode_line_text_in by assumption. rewrite line_eq. f_equal.
  rewrite <- (select_same (as_decoded (with_dirname dir E))).
  cbn [_selected as_decoded with_dirname].
  rewrite line_text_decoded, select_same. reflexivity.
Qed.

Lemma line_of_decoded_line_witness :
  FileItem.line (parseLine "/tmp" sample_file_line) = Some sample_file_line /\
  FileItem.line (parseLine "/tmp" sample_directory_line)
  = Some (sample_directory_line ++ "/").
Proof.
  split.
  - destruct (line_of_decoded_line "/tmp" sample_file) as (l & Hl & H).
    + constructor; repeat split; try discriminate; try reflexivity;
        eexists; (split; [reflexivity | lia]).
    + exists 42%Z. split; [reflexivity | lia].
    + injection Hl as <-. exact H.
  - destruct (line_of_decoded_line "/tmp" sample_directory) as (l & Hl & H).
    + constructor; repeat split; try discriminate; try reflexivity;
        eexists; (split; [reflexivity | lia]).
    + exists 4096%Z. split; [reflexivity | lia].
    + injection Hl as <-. exact H.
Defined.

(** A turn of the selection loop on the line of a valid entry. *)
Lemma select_line_rendered (dir : string) (value allow : bool) (E : FileItem) :
  valid E -> size_fits E ->
  select_line dir value allow (line_text E) =
  if ((rendered_name E =? ".") || (rendered_name E =? "..")) && negb allow
  then line_text E
  else line_text (FileItem.select value E) ++ extra_slash E.
Proof.
  intros Hv Hs. unfold select_line.
  rewrite decode_line_text_in by assumption.
  unfold is_dot_entry, fileName. cbn [_filename as_decoded].
  replace (rendered_name (with_dirname dir E)) with (rendered_name E) by reflexivity.
  destruct (_ && negb allow); [reflexivity|].
  apply line_text_decoded.
Qed.

Lemma size_fits_select (value : bool) (E : FileItem) :
  size_fits E -> size_fits (FileItem.select value E).
Proof. intros H. exact H. Qed.

(** ** The header, the listing and its reloading *)

Lemma dirname_of_header_line (dir : string) :
  JS.substring (dir ++ ":") 0 (length (dir ++ ":") - 1) = dir.
Proof.
  rewrite length_append. simpl length.
  replace (length dir + 1 - 1) with (length dir) by lia.
  apply substring_head. reflexivity.
Qed.

(** Every buffer that [createBuffer] returns is the header of the
    directory followed by the lines of some entries, and is stored in the
    provider. *)
Lemma createBuffer_returns
    (fs : FileSystem) (path_join : string -> string -> string)
    (new_Mode : Stats -> Mode) (_resolver : IDResolver)
    (this : DiredProvider) (dir : string) (buffers : list string)
    (s : DiredProvider * list effect) :
  createBuffer fs path_join new_Mode _resolver this dir = Returned buffers s ->
  exists files, buffers = (dir ++ ":") :: map line_text files /\
                fst s = set_buffers buffers this.
Proof.
  unfold createBuffer. intros H.
  destruct (lstatSync fs dir) as [err|st]; [discriminate|].
  destruct (stats_isDirectory st).
  - destruct (readDir fs path_join new_Mode _resolver this dir) as [files log|err log|];
      [| |discriminate].
    + rewrite map_line_eq in H. injection H as <- <-. exists files. split; reflexivity.
    + rewrite map_line_eq in H. injection H as <- <-. exists []. split; reflexivity.
  - rewrite map_line_eq in H. injection H as <- <-. exists []. split; reflexivity.
Qed.

Lemma first_line_before_break (a b : string) :
  occurs "010" a = false -> occurs "013" a = false ->
  first_line (a ++ String "010" b) = a /\ first_line a = a.
Proof.
  induction a as [|c a IH]; intros Hn Hr; [split; reflexivity|].
  simpl in Hn, Hr. apply orb_false_iff in Hn, Hr.
  destruct Hn as [Hcn Hn]. destruct Hr as [Hcr Hr].
  destruct (IH Hn Hr) as [IH1 IH2].
  simpl. rewrite Hcn, Hcr, IH1, IH2. split; reflexivity.
Qed.

Lemma occurs_in_header (c : ascii) (dir : string) :
  occurs c dir = false -> Ascii.eqb ":" c = false -> occurs c (dir ++ ":") = false.
Proof.
  intros H Hc. induction dir as [|x dir IH]; simpl in *; [rewrite Hc; reflexivity|].
  apply orb_false_iff in H. destruct H as [Hx H]. rewrite Hx, IH by exact H. reflexivity.
Qed.

Lemma first_line_of_join (header : string) (body : list string) :
  occurs "010" header = false -> occurs "013" header = false ->
  first_line (JS.join (String "010" "") (header :: body)) = header.
Proof.
  intros Hn Hr. destruct body as [|line body].
  - apply (first_line_before_break header ""); assumption.
  - cbn [JS.join]. change (String "010" "" ++ ?x) with (String "010" x).
    apply first_line_before_break; assumption.
Qed.

(** X4. The directory is read back from the header.  Whenever
    [createBuffer] returns a buffer for a directory whose path holds no
    line break, an editor whose first line is the first line of the text
    that [render] gives for the provider has this directory as its
    [dirname]. *)
Theorem dirname_of_created_buffer
    (fs : FileSystem) (path_join : string -> string -> string)
    (new_Mode : Stats -> Mode) (_resolver : IDResolver)
    (this this' : DiredProvider) (dir : string) (buffers : list string)
    (log : list effect) (at_ : vscode.TextEditor) :
  createBuffer fs path_join new_Mode _resolver this dir = Returned buffers (this', log) ->
  occurs "010" dir = false -> occurs "013" dir = false ->
  vscode.firstLine (vscode.document at_) = first_line (render this') ->
  dirname (Some at_) = Some dir.
Proof.
  intros Hrun Hn Hr Hshown.
  destruct (createBuffer_returns _ _ _ _ _ _ _ _ Hrun) as (files & -> & Hthis).
  cbn [fst] in Hthis. subst this'.
  unfold render in Hshown. cbn [_buffers set_buffers] in Hshown.
  rewrite first_line_of_join in Hshown
    by (apply occurs_in_header; [assumption | reflexivity]).
  unfold dirname. rewrite Hshown, dirname_of_header_line. reflexivity.
Qed.

Lemma dirname_of_created_buffer_witness :
  dirname (Some (showing "/home" (map line_text sample_home_files) 0)) = Some "/home".
Proof.
  apply (dirname_of_created_buffer sample_fs_home sample_path_join sample_Mode
           sample_resolver sample_provider
           (set_buffers (("/home:") :: map line_text sample_home_files) sample_provider)
           "/home" (("/home:") :: map line_text sample_home_files) []);
    reflexivity.
Defined.

(** With a line break in the path the header is cut at the break, and
    [dirname] is not the path. *)
Example dirname_of_a_path_with_a_line_break :
  first_line (render (mkDiredProvider true true
                        [String "/" (String "a" (String "010" (String "b" ":")))]))
  = "/a" /\
  dirname (Some (vscode.mkTextEditor (vscode.mkTextDocument "/a" ["b:"])
                   (vscode.mkSelection (vscode.mkPosition 0 0) (vscode.mkPosition 0 0)
                      (vscode.mkPosition 0 0))))
  = Some "/".
Proof. repeat split. Qed.

(** X5. [createBuffer] when the directory cannot be shown.  If
    [lstatSync] throws, the call throws and the provider keeps its buffer.
    If the path is not a directory, the buffer is the header alone and
    nothing is shown.  If the directory cannot be listed, the buffer is
    the header alone and one message tells so. *)
Theorem createBuffer_without_listing
    (fs : FileSystem) (path_join : string -> string -> string)
    (new_Mode : Stats -> Mode) (_resolver : IDResolver)
    (this : DiredProvider) (dir : string) :
  (forall err, lstatSync fs dir = inl err ->
     createBuffer fs path_join new_Mode _resolver this dir = Threw err (this, [])) /\
  (forall st, lstatSync fs dir = inr st -> stats_isDirectory st = false ->
     createBuffer fs path_join new_Mode _resolver this dir
     = Returned [dir ++ ":"] (set_buffers [dir ++ ":"] this, [])) /\
  (forall st err, lstatSync fs dir = inr st -> stats_isDirectory st = true ->
     readdirSync fs dir = inl err ->
     createBuffer fs path_join new_Mode _resolver this dir
     = Returned [dir ++ ":"]
         (set_buffers [dir ++ ":"] this,
          [showErrorMessage ("Could not read " ++ dir ++ ": " ++ exn_str err)])).
Proof.
  unfold createBuffer, readDir. repeat split.
  - intros err ->. reflexivity.
  - intros st -> ->. reflexivity.
  - intros st err -> -> ->. reflexivity.
Qed.

Lemma createBuffer_without_listing_witness :
  createBuffer sample_fs_scenario sample_path_join sample_Mode sample_resolver
    sample_hiding_provider "/tmp/a.txt"
  = Returned ["/tmp/a.txt:"] (set_buffers ["/tmp/a.txt:"] sample_hiding_provider, []).
Proof.
  destruct (createBuffer_without_listing sample_fs_scenario sample_path_join sample_Mode
              sample_resolver sample_hiding_provider "/tmp/a.txt") as (_ & H & _).
  apply (H sample_stats); reflexivity.
Defined.

Lemma filter_filter_and {A : Type} (f g : A -> bool) (l : list A) :
  filter f (filter g l) = filter (fun x => g x && f x) l.
Proof.
  induction l as [|x l IH]; [reflexivity|].
  simpl. destruct (g x); simpl; [destruct (f x)|]; rewrite ?IH; reflexivity.
Qed.

Lemma readDir_items_created
    (fs : FileSystem) (path_join : string -> string -> string)
    (new_Mode : Stats -> Mode) (_resolver : IDResolver)
    (this : DiredProvider) (dir : string) (l : list string) :
  Forall (fun f => _dirname f = dir /\ _selected f = false)
    (items (filter (readDir_keep this)
              (map fst (map (readDir_stat fs path_join new_Mode _resolver dir) l)))).
Proof.
  induction l as [|name l IH]; [constructor|].
  cbn [map filter].
  assert (fst (readDir_stat fs path_join new_Mode _resolver dir name) =
          match statSync fs (path_join dir name) with
          | inr stat => Some (FileItem.create new_Mode _resolver dir name stat)
          | inl _ => None
          end) as ->
    by (unfold readDir_stat; destruct (statSync fs (path_join dir name)); reflexivity).
  destruct (statSync fs (path_join dir name)) as [err|stat].
  - cbn [readDir_keep]. exact IH.
  - destruct (readDir_keep this _); [|exact IH].
    unfold items in *. cbn [flat_map app]. constructor; [split; reflexivity | exact IH].
Qed.

(** X6. [readDir] keeps the order of the directory and reports every
    failure.  The names it returns are those of [readdirSync], in the same
    order, without the entries that cannot be examined or are not to be
    shown; every item lies in the directory read and is not selected; one
    message is shown for each name among [.], [..] and the entries whose
    [statSync] throws, in that order.  When [readdirSync] throws, [readDir]
    throws the same error and shows nothing. *)
Theorem readDir_keeps_directory_order
    (fs : FileSystem) (path_join : string -> string -> string)
    (new_Mode : Stats -> Mode) (_resolver : IDResolver)
    (this : DiredProvider) (dir : string) :
  (forall names, readdirSync fs dir = inr names ->
     exists files,
       readDir fs path_join new_Mode _resolver this dir
       = Returned files (stat_messages fs path_join dir ("." :: ".." :: names)) /\
       map fileName files
       = filter (fun name => stat_succeeds fs path_join dir name
                             && is_listed (_show_dot_files this) name) names /\
       Forall (fun f => _dirname f = dir /\ _selected f = false) files) /\
  (forall err, readdirSync fs dir = inl err ->
     readDir fs path_join new_Mode _resolver this dir = Threw err []).
Proof.
  split.
  - intros names Hr.
    destruct (readDir_spec fs path_join new_Mode _resolver this dir names Hr)
      as (files & Hrun & Hnames).
    exists files. repeat split; try assumption.
    unfold readDir in Hrun. rewrite Hr in Hrun.
    apply (f_equal (fun r => match r with Returned a _ => a | _ => [] end)) in Hrun.
    cbv beta iota zeta in Hrun. rewrite <- Hrun. apply readDir_items_created.
  - intros err Hr. unfold readDir. rewrite Hr. reflexivity.
Qed.

Lemma readDir_keeps_directory_order_witness :
  exists files,
    readDir sample_fs sample_path_join sample_Mode sample_resolver sample_provider "/tmp"
    = Returned files [showErrorMessage "Could not get stat of /tmp/broken: Error: ENOENT"] /\
    map fileName files = ["a.txt"; ".hidden"].
Proof.
  destruct (readDir_keeps_directory_order sample_fs sample_path_join sample_Mode
              sample_resolver sample_provider "/tmp") as [H _].
  destruct (H ["a.txt"; ".hidden"; "broken"] eq_refl) as (files & Hrun & Hnames & _).
  exists files. split; [exact Hrun | exact Hnames].
Defined.

(** X7. Hiding the dot files removes from the listing exactly the names
    that begin with a dot: what [readDir] returns with the dot files hidden
    is what it returns with the dot files shown, without those names and in
    the same order, and the messages are the same. *)
Theorem hidden_listing_is_shown_listing_without_dot_names
    (fs : FileSystem) (path_join : string -> string -> string)
    (new_Mode : Stats -> Mode) (_resolver : IDResolver)
    (fixed_window : bool) (buffers buffers' : list string)
    (dir : string) (names : list string) :
  readdirSync fs dir = inr names ->
  exists shown hidden log,
    readDir fs path_join new_Mode _resolver
      (mkDiredProvider fixed_window true buffers) dir = Returned shown log /\
    readDir fs path_join new_Mode _resolver
      (mkDiredProvider fixed_window false buffers') dir = Returned hidden log /\
    map fileName hidden
    = filter (fun name => negb (starts_with_dot name)) (map fileName shown).
Proof.
  intros Hr.
  destruct (readDir_spec fs path_join new_Mode _resolver
              (mkDiredProvider fixed_window true buffers) dir names Hr)
    as (shown & Hshown & Ns).
  destruct (readDir_spec fs path_join new_Mode _resolver
              (mkDiredProvider fixed_window false buffers') dir names Hr)
    as (hidden & Hhidden & Nh).
  exists shown, hidden. eexists. split; [exact Hshown|]. split; [exact Hhidden|].
  rewrite Ns, Nh, filter_filter_and. apply filter_ext. intros name.
  unfold is_listed. cbn [_show_dot_files].
  destruct (stat_succeeds fs path_join dir name), (name =? "."), (name =? ".."),
    (starts_with_dot name); reflexivity.
Qed.

Lemma hidden_listing_is_shown_listing_without_dot_names_witness :
  exists shown hidden log,
    readDir sample_fs sample_path_join sample_Mode sample_resolver
      (mkDiredProvider true true []) "/tmp" = Returned shown log /\
    readDir sample_fs sample_path_join sample_Mode sample_resolver
      (mkDiredProvider true false []) "/tmp" = Returned hidden log /\
    map fileName hidden
    = filter (fun name => negb (starts_with_dot name)) (map fileName shown).
Proof.
  apply (hidden_listing_is_shown_listing_without_dot_names sample_fs sample_path_join
           sample_Mode sample_resolver true [] [] "/tmp" ["a.txt"; ".hidden"; "broken"]).
  reflexivity.
Defined.

(** What [createBuffer] does depends on the provider only through
    [_show_dot_files]: with another buffer in place it ends the same way,
    by throwing when [lstatSync] throws and by returning otherwise. *)
Lemma createBuffer_cases
    (fs : FileSystem) (path_join : string -> string -> string)
    (new_Mode : Stats -> Mode) (_resolver : IDResolver)
    (this : DiredProvider) (dir : string) :
  (exists err, lstatSync fs dir = inl err /\ forall bufs,
     createBuffer fs path_join new_Mode _resolver (set_buffers bufs this) dir
     = Threw err (set_buffers bufs this, [])) \/
  (exists st buffers log, lstatSync fs dir = inr st /\ forall bufs,
     createBuffer fs path_join new_Mode _resolver (set_buffers bufs this) dir
     = Returned buffers (set_buffers buffers this, log)).
Proof.
  destruct (lstatSync fs dir) as [err|st] eqn:Hl.
  { left. exists err. split; [reflexivity|].
    intros bufs. unfold createBuffer. rewrite Hl. reflexivity. }
  right. exists st. destruct (stats_isDirectory st) eqn:Hd.
  - destruct (readDir fs path_join new_Mode _resolver this dir) as [files log|err log|] eqn:Hr.
    + exists ((dir ++ ":") :: map line_text files), log. split; [reflexivity|]. intros bufs.
      unfold createBuffer. rewrite Hl, Hd.
      change (readDir fs path_join new_Mode _resolver (set_buffers bufs this) dir)
        with (readDir fs path_join new_Mode _resolver this dir).
      rewrite Hr, map_line_eq. reflexivity.
    + eexists [dir ++ ":"], _. split; [reflexivity|]. intros bufs.
      unfold createBuffer. rewrite Hl, Hd.
      change (readDir fs path_join new_Mode _resolver (set_buffers bufs this) dir)
        with (readDir fs path_join new_Mode _resolver this dir).
      rewrite Hr. reflexivity.
    + exfalso. unfold readDir in Hr. destruct (readdirSync fs dir); discriminate.
  - exists [dir ++ ":"], []. split; [reflexivity|].
    intros bufs. unfold createBuffer. rewrite Hl, Hd. reflexivity.
Qed.

(** X8. Toggling the dot files a second time is reloading: after
    [toggleDotFiles] has returned, a second [toggleDotFiles] under the same
    editor and file system leaves the provider and shows the messages
    exactly as [reload] does from the state before the first. *)
Theorem toggling_twice_is_reloading
    (fs : FileSystem) (path_join : string -> string -> string)
    (new_Mode : Stats -> Mode) (_resolver : IDResolver)
    (activeTextEditor : option vscode.TextEditor)
    (this this1 : DiredProvider) (log1 : list effect) :
  toggleDotFiles fs path_join new_Mode _resolver activeTextEditor this
  = Returned tt (this1, log1) ->
  toggleDotFiles fs path_join new_Mode _resolver activeTextEditor this1
  = reload fs path_join new_Mode _resolver activeTextEditor this.
Proof.
  destruct this as [fw b bufs].
  unfold toggleDotFiles, reload, reload_call. cbn [_fixed_window _show_dot_files _buffers].
  destruct (dirname activeTextEditor) as [dir|].
  2:{ intros H. injection H as <- _. cbn. rewrite negb_involutive. reflexivity. }
  destruct (dir =? "").
  { intros H. injection H as <- _. cbn. rewrite negb_involutive. reflexivity. }
  destruct (createBuffer_cases fs path_join new_Mode _resolver
              (mkDiredProvider fw (negb b) bufs) dir)
    as [(e1 & L1 & H1) | (s1 & b1 & l1 & L1 & H1)];
    destruct (createBuffer_cases fs path_join new_Mode _resolver
                (mkDiredProvider fw b bufs) dir)
      as [(e2 & L2 & H2) | (s2 & b2 & l2 & L2 & H2)];
    try congruence.
  - specialize (H1 bufs) as H1'. specialize (H2 bufs) as H2'.
    unfold set_buffers in H1', H2'. cbn in H1', H2'. rewrite H1', H2'.
    intros H. injection H as <- _. cbn. rewrite negb_involutive, H2'. reflexivity.
  - specialize (H1 bufs) as H1'. specialize (H2 bufs) as H2'.
    unfold set_buffers in H1', H2'. cbn in H1', H2'. rewrite H1', H2'.
    intros H. injection H as <- _. cbn. rewrite negb_involutive.
    specialize (H2 b1). unfold set_buffers in H2. cbn in H2. rewrite H2. reflexivity.
Qed.

Lemma toggling_twice_is_reloading_witness :
  exists this1 log1,
    toggleDotFiles sample_fs sample_path_join sample_Mode sample_resolver
      (Some (showing "/tmp" [] 0)) sample_provider = Returned tt (this1, log1) /\
    toggleDotFiles sample_fs sample_path_join sample_Mode sample_resolver
      (Some (showing "/tmp" [] 0)) this1
    = reload sample_fs sample_path_join sample_Mode sample_resolver
        (Some (showing "/tmp" [] 0)) sample_provider.
Proof.
  eexists _, _. split; [reflexivity|].
  apply (toggling_twice_is_reloading sample_fs sample_path_join sample_Mode sample_resolver
           (Some (showing "/tmp" [] 0)) sample_provider _ _ eq_refl).
Defined.

(** ** More on the selection *)

(** X9. [selectRange] always ends.  It returns when the range is empty or
    ends inside the buffer, and throws a [TypeError] when a non-empty range
    runs past the end.  Either way the buffer it leaves has the length of
    the one it found, and every line outside the range is left as it
    was. *)
Theorem selectRange_ends_and_frames (dir : string) (lines : list string)
    (start end_ : nat) (value allow : bool) :
  exists lines',
    (selectRange dir lines start end_ value allow
     = if (end_ <=? start)%nat || (end_ <=? List.length lines)%nat
       then Returned tt lines' else Threw TypeError lines') /\
    List.length lines' = List.length lines /\
    forall k, k < start \/ end_ <= k -> nth_error lines' k = nth_error lines k.
Proof.
  destruct (selectRange_loop_frame dir value allow (end_ - start) start lines)
    as (lines' & Hrun & Hlen & Hnth).
  fold (selectRange dir lines start end_ value allow) in Hrun.
  exists lines'. repeat split; try assumption.
  - destruct (Nat.leb_spec end_ start) as [Hs|Hs];
      [|destruct (Nat.leb_spec end_ (List.length lines)) as [He|He]]; cbn [orb].
    + unfold selectRange in Hrun |- *. replace (end_ - start) with 0 in * by lia.
      simpl in Hrun. injection Hrun as <-. reflexivity.
    + destruct (selectRange_spec dir lines start end_ value allow He) as (l2 & Hl2 & _).
      rewrite Hl2 in Hrun |- *. simpl in Hrun. congruence.
    + destruct (selectRange_past_the_end dir lines start end_ value allow Hs He)
        as (l2 & Hl2).
      rewrite Hl2 in Hrun |- *. simpl in Hrun. congruence.
  - intros k Hk. destruct (Hnth k) as [H | (Hin & _)]; [exact H | lia].
Qed.

Lemma selectRange_ends_and_frames_witness :
  exists lines',
    selectRange "/tmp" sample_buffer 2 9 true false = Threw TypeError lines' /\
    nth_error lines' 1 = Some sample_directory_line.
Proof.
  destruct (selectRange_ends_and_frames "/tmp" sample_buffer 2 9 true false)
    as (lines' & Hrun & _ & Hout).
  exists lines'. split; [exact Hrun|].
  rewrite (Hout 1); [reflexivity | left; lia].
Defined.

(** X10. With its positions inside the document, [selectFiles] never
    throws: it returns, and the buffer it leaves is either the one it
    found, when there is no directory to read from the header, or a buffer
    with as many lines as the document. *)
Theorem selectFiles_returns_inside_document
    (at_ : vscode.TextEditor) (value : bool) (this : DiredProvider) :
  inside_document at_ ->
  exists this' log,
    selectFiles (Some at_) value this = Returned tt (this', log) /\
    (this' = this \/
     List.length (_buffers this') = vscode.lineCount (vscode.document at_)).
Proof.
  intros (Hse & He & Ha). unfold selectFiles. cbn [dirname].
  destruct (_ =? ""); [exists this, []; split; [reflexivity | left; reflexivity]|].
  destruct (vscode.isEmpty (vscode.selection at_));
    [destruct (vscode.line (vscode.active (vscode.selection at_)) =? 0)%nat|].
  - destruct (selectRange_spec
                (JS.substring (vscode.firstLine (vscode.document at_)) 0
                   (length (vscode.firstLine (vscode.document at_)) - 1))
                (vscode.lines (vscode.document at_)) 1
                (vscode.lineCount (vscode.document at_)) value false)
      as (l' & Hrun & Hlen & _); [unfold vscode.lineCount; lia|].
    rewrite Hrun. eexists _, _. split; [reflexivity|]. right. exact Hlen.
  - destruct (selectRange_spec
                (JS.substring (vscode.firstLine (vscode.document at_)) 0
                   (length (vscode.firstLine (vscode.document at_)) - 1))
                (vscode.lines (vscode.document at_))
                (vscode.line (vscode.active (vscode.selection at_)))
                (vscode.line (vscode.active (vscode.selection at_)) + 1) value true)
      as (l' & Hrun & Hlen & _); [unfold vscode.lineCount in Ha; lia|].
    rewrite Hrun. eexists _, _. split; [reflexivity|]. right. exact Hlen.
  - destruct (selectRange_spec
                (JS.substring (vscode.firstLine (vscode.document at_)) 0
                   (length (vscode.firstLine (vscode.document at_)) - 1))
                (vscode.lines (vscode.document at_))
                (vscode.line (vscode.start (vscode.selection at_)))
                (vscode.line (vscode.end_ (vscode.selection at_))) value false)
      as (l' & Hrun & Hlen & _); [unfold vscode.lineCount in He; lia|].
    rewrite Hrun. eexists _, _. split; [reflexivity|]. right. exact Hlen.
Qed.

Lemma selectFiles_returns_inside_document_witness :
  exists this' log,
    selectFiles (Some sample_editor) false sample_provider = Returned tt (this', log).
Proof.
  destruct (selectFiles_returns_inside_document sample_editor false sample_provider)
    as (this' & log & Hrun & _).
  - unfold inside_document, sample_editor, vscode.lineCount. cbn. lia.
  - exists this', log. exact Hrun.
Defined.

(** X11. With nothing selected and the cursor on line [k] below the
    header, [selectFiles] rewrites line [k] alone, also when it shows [.]
    or [..]: the buffer it leaves is the document with line [k] replaced
    by the line of its decoded entry, flagged as asked; the cursor is moved
    down and the change is announced. *)
Theorem selectFiles_on_the_cursor_line
    (at_ : vscode.TextEditor) (value : bool) (this : DiredProvider)
    (dir text : string) (k : nat) :
  vscode.isEmpty (vscode.selection at_) = true ->
  vscode.line (vscode.active (vscode.selection at_)) = k -> 1 <= k ->
  nth_error (vscode.lines (vscode.document at_)) k = Some text ->
  dirname (Some at_) = Some dir -> dir <> "" ->
  selectFiles (Some at_) value this
  = Returned tt
      (set_buffers
         (assign k (line_text (FileItem.select value (parseLine dir text)))
            (vscode.lines (vscode.document at_))) this,
       [executeCommand_cursorMove_down; onDidChange_fire]).
Proof.
  intros Hempty Hk H1 Htext Hdir Hne. unfold selectFiles. rewrite Hdir.
  apply String.eqb_neq in Hne. rewrite Hne, Hempty, Hk.
  replace (k =? 0)%nat with false by (symmetry; apply Nat.eqb_neq; lia).
  unfold selectRange. replace (k + 1 - k) with 1 by lia.
  cbn [selectRange_loop]. rewrite Htext, andb_false_r, line_eq. reflexivity.
Qed.

Lemma selectFiles_on_the_cursor_line_witness :
  selectFiles (Some (showing "/tmp" [sample_dot_line; sample_file_line] 1)) true
    sample_provider
  = Returned tt
      (mkDiredProvider true true
         ["/tmp:"; "* drwxr-xr-x root     staff        4096 01 05 09:03 ./";
          sample_file_line],
       [executeCommand_cursorMove_down; onDidChange_fire]).
Proof.
  apply (selectFiles_on_the_cursor_line
           (showing "/tmp" [sample_dot_line; sample_file_line] 1) true sample_provider
           "/tmp" sample_dot_line 1); try reflexivity.
  discriminate.
Defined.

Lemma rendered_entry_select (value : bool) (E : FileItem) :
  rendered_entry E -> rendered_entry (FileItem.select value E).
Proof.
  intros (Hv & Hs & Hd & Hdd).
  split; [apply valid_select; exact Hv | split; [exact Hs | split; assumption]].
Qed.

Lemma select_line_rendered_entry (dir : string) (value allow : bool) (E : FileItem) :
  rendered_entry E ->
  select_line dir value allow (line_text E)
  = line_text (FileItem.select value E) ++ extra_slash E.
Proof.
  intros (Hv & Hs & Hd & Hdd). rewrite select_line_rendered by assumption.
  apply String.eqb_neq in Hd, Hdd. rewrite Hd, Hdd. reflexivity.
Qed.

(** X12. Selecting all from the header.  When the document shows the
    lines of valid entries whose sizes fit, none of them shown as [.] or
    [..], [selectFiles] with the cursor on the header returns the header
    followed, for each entry in turn, by the line of that entry flagged as
    asked, with one more slash at its end if the entry is a directory. *)
Theorem selectFiles_from_the_header (dir : string) (files : list FileItem)
    (value : bool) (this : DiredProvider) :
  dir <> "" -> Forall rendered_entry files ->
  selectFiles (Some (showing dir (map line_text files) 0)) value this
  = Returned tt
      (set_buffers
         ((dir ++ ":")
            :: map (fun E => line_text (FileItem.select value E)
                             ++ (if _isDirectory E then "/" else "")) files) this,
       [onDidChange_fire]).
Proof.
  intros Hne Hfiles. unfold selectFiles, showing. cbn [dirname vscode.document vscode.firstLine].
  rewrite dirname_of_header_line. apply String.eqb_neq in Hne. rewrite Hne.
  cbn [vscode.selection vscode.isEmpty vscode.start vscode.end_ vscode.active
       vscode.line vscode.character Nat.eqb andb].
  unfold vscode.lineCount, vscode.lines. cbn [vscode.firstLine vscode.moreLines].
  destruct (selectRange_spec dir ((dir ++ ":") :: map line_text files) 1
              (List.length ((dir ++ ":") :: map line_text files)) value false)
    as (lines' & Hrun & Hlen & Hnth); [lia|].
  rewrite Hrun. cbn [app]. do 2 f_equal. f_equal.
  apply nth_error_ext. intros [|k].
  - rewrite Hnth. reflexivity.
  - rewrite Hnth. cbn [nth_error List.length]. rewrite !nth_error_map.
    unfold in_range. cbn [Nat.leb].
    destruct (nth_error files k) as [E|] eqn:HE.
    + assert (k < List.length files) as Hk by (apply nth_error_Some; congruence).
      rewrite length_map.
      replace (S k <? 1 + (S (List.length files) - 1))%nat with true
        by (symmetry; apply Nat.ltb_lt; lia).
      cbn [option_map andb]. f_equal. apply select_line_rendered_entry.
      rewrite Forall_forall in Hfiles. apply Hfiles.
      apply nth_error_In with (n := k). exact HE.
    + destruct (_ <? _)%nat; reflexivity.
Qed.

Lemma selectFiles_from_the_header_witness :
  selectFiles
    (Some (showing "/tmp" (map line_text [sample_directory; sample_file]) 0)) true
    sample_provider
  = Returned tt
      (mkDiredProvider true true
         ["/tmp:"; sample_directory_selected;
          "* -rw-r--r-- root     staff          42 01 05 09:03 x"],
       [onDidChange_fire]).
Proof.
  apply (selectFiles_from_the_header "/tmp" [sample_directory; sample_file] true
           sample_provider).
  - discriminate.
  - repeat constructor; try discriminate; try reflexivity;
      eexists; (split; [reflexivity | lia]).
Defined.

(** Unselecting the selected line of a file that was not selected gives
    the line of the file again. *)
Lemma unselect_select_line (dir : string) (allow : bool) (E : FileItem) :
  unselected_file E ->
  select_line dir false allow (select_line dir true allow (line_text E)) = line_text E.
Proof.
  intros (Hv & Hs & Hd & Hsel).
  assert (extra_slash E = "") as Hslash by (unfold extra_slash; rewrite Hd; reflexivity).
  assert (FileItem.select false E = E) as Hsame by (rewrite <- Hsel; apply select_same).
  rewrite (select_line_rendered dir true allow E Hv Hs).
  destruct (_ && negb allow) eqn:Hdot.
  - rewrite (select_line_rendered dir false allow E Hv Hs), Hdot. reflexivity.
  - rewrite Hslash, append_nil_r.
    rewrite (select_line_rendered dir false allow (FileItem.select true E)
               (valid_select true E Hv) Hs).
    rewrite rendered_name_select, Hdot.
    change (FileItem.select false (FileItem.select true E)) with (FileItem.select false E).
    change (extra_slash (FileItem.select true E)) with (extra_slash E).
    rewrite Hsame, Hslash, append_nil_r. reflexivity.
Qed.

(** X15. Selecting and then unselecting gives the buffer back.  Over a
    range that ends inside the buffer and whose lines are the lines of
    valid files, not directories, that fit their columns and are not
    selected, [selectRange] with [true] followed by [selectRange] with
    [false] over the same range returns the buffer it started from. *)
Theorem unselect_after_select_restores_files (dir : string) (lines : list string)
    (start end_ : nat) (allow : bool) :
  end_ <= List.length lines ->
  (forall k text, start <= k < end_ -> nth_error lines k = Some text ->
                  exists E, text = line_text E /\ unselected_file E) ->
  exists selected,
    selectRange dir lines start end_ true allow = Returned tt selected /\
    selectRange dir selected start end_ false allow = Returned tt lines.
Proof.
  intros He Hfiles.
  destruct (selectRange_spec dir lines start end_ true allow He)
    as (selected & Hrun1 & Hlen1 & Hnth1).
  exists selected. split; [exact Hrun1|].
  destruct (selectRange_spec dir selected start end_ false allow)
    as (back & Hrun2 & _ & Hnth2); [lia|].
  rewrite Hrun2. f_equal. apply nth_error_ext. intros k.
  rewrite Hnth2, Hnth1.
  destruct (in_range start (end_ - start) k) eqn:Hk; [|reflexivity].
  destruct (nth_error lines k) as [text|] eqn:Htext; [|reflexivity].
  simpl. f_equal.
  destruct (Hfiles k text) as (E & -> & HE); [|exact Htext|].
  - unfold in_range in Hk. apply andb_true_iff in Hk. destruct Hk as [H1 H2].
    apply Nat.leb_le in H1. apply Nat.ltb_lt in H2. lia.
  - apply unselect_select_line. exact HE.
Qed.

Lemma unselected_sample_file : unselected_file sample_file.
Proof.
  split; [|split; [exists 42%Z; split; [reflexivity | lia] | split; reflexivity]].
  constructor; repeat split; try discriminate; try reflexivity;
    eexists; (split; [reflexivity | lia]).
Qed.

Lemma unselect_after_select_restores_files_witness :
  exists selected,
    selectRange "/tmp" ["/tmp:"; sample_file_line] 1 2 true false = Returned tt selected /\
    selectRange "/tmp" selected 1 2 false false = Returned tt ["/tmp:"; sample_file_line].
Proof.
  apply (unselect_after_select_restores_files "/tmp" ["/tmp:"; sample_file_line] 1 2 false).
  - simpl. lia.
  - intros k text Hk Htext. assert (k = 1) as -> by lia.
    injection Htext as <-. exists sample_file.
    split; [reflexivity | exact unselected_sample_file].
Defined.

Lemma selectRange_idempotent_on_files_witness :
  exists once,
    selectRange "/tmp" ["/tmp:"; sample_file_line] 1 2 true false = Returned tt once /\
    selectRange "/tmp" once 1 2 true false = Returned tt once.
Proof.
  apply (selectRange_idempotent_on_files "/tmp" ["/tmp:"; sample_file_line] 1 2 true false).
  - simpl. lia.
  - intros k text Hk Htext. assert (k = 1) as -> by lia.
    injection Htext as <-. unfold decodes_to_valid_file.
    replace (parseLine "/tmp" sample_file_line) with (as_decoded sample_file)
      by reflexivity.
    split; [|split; [exists 42%Z; split; [reflexivity | lia] | reflexivity]].
    constructor; repeat split; try discriminate; try reflexivity;
      eexists; (split; [reflexivity | lia]).
Defined.

Lemma selectFiles_keeps_header_without_selection_witness :
  exists this' log,
    left_behind (selectFiles (Some (showing "/tmp" [sample_file_line] 1)) true
                   sample_provider) = Some (this', log) /\
    (this' = sample_provider \/ nth_error (_buffers this') 0 = Some "/tmp:").
Proof.
  eexists _, _. split; [reflexivity|].
  apply (selectFiles_keeps_header_without_selection
           (showing "/tmp" [sample_file_line] 1) true sample_provider _ _ eq_refl eq_refl).
Defined.

(** ** The file under the cursor *)

Lemma getFile_decodes
    (at_ : vscode.TextEditor) (dir : string) (k : nat) (E : FileItem) :
  vscode.line (vscode.active (vscode.selection at_)) = k -> 1 <= k ->
  nth_error (vscode.lines (vscode.document at_)) k = Some (line_text E) ->
  dirname (Some at_) = Some dir -> dir <> "" ->
  valid E -> size_fits E ->
  getFile (Some at_) = Item (as_decoded (with_dirname dir E)).
Proof.
  intros Hk H1 Hline Hdir Hne Hv Hs.
  unfold getFile. rewrite Hk, Hline, Hdir.
  replace (k <? 1)%nat with false by (symmetry; apply Nat.ltb_ge; lia).
  apply String.eqb_neq in Hne. rewrite Hne.
  rewrite decode_line_text_in by assumption. reflexivity.
Qed.

(** X16. [getFile] decodes the line under the cursor.  With the cursor on
    line [k] below the header of a non-empty directory, on the line of a
    valid entry whose size fits, it gives the entry as decoded from that
    directory: its name is the name of the entry, followed by a slash for
    a directory. *)
Theorem getFile_of_rendered_line
    (at_ : vscode.TextEditor) (dir : string) (k : nat) (E : FileItem) :
  vscode.line (vscode.active (vscode.selection at_)) = k -> 1 <= k ->
  nth_error (vscode.lines (vscode.document at_)) k = Some (line_text E) ->
  dirname (Some at_) = Some dir -> dir <> "" ->
  valid E -> size_fits E ->
  exists f,
    getFile (Some at_) = Item f /\
    f = as_decoded (with_dirname dir E) /\
    _dirname f = dir /\
    fileName f = (if _isDirectory E then _filename E ++ "/" else _filename E).
Proof.
  intros Hk H1 Hline Hdir Hne Hv Hs.
  exists (as_decoded (with_dirname dir E)). repeat split.
  apply (getFile_decodes at_ dir k E); assumption.
Qed.

Lemma getFile_of_rendered_line_witness :
  exists f,
    getFile (Some (showing "/tmp" [sample_directory_line; sample_file_line] 2)) = Item f /\
    fileName f = "x".
Proof.
  destruct (getFile_of_rendered_line
              (showing "/tmp" [sample_directory_line; sample_file_line] 2)
              "/tmp" 2 sample_file) as (f & Hf & _ & _ & Hname);
    try reflexivity.
  - lia.
  - discriminate.
  - constructor; repeat split; try discriminate; try reflexivity;
      eexists; (split; [reflexivity | lia]).
  - exists 42%Z. split; [reflexivity | lia].
  - exists f. split; [exact Hf | exact Hname].
Defined.



(** X18. With no editor, or with the cursor on the header, there is no
    file under the cursor: [getFile] gives [null], and [delete] returns
    without calling [unlinkSync] and leaves the file system and the
    provider as they are. *)
Theorem nothing_under_the_cursor_on_the_header
    (fs : FileSystem) (unlinkSync : string -> exn + FileSystem)
    (path_join : string -> string -> string)
    (new_Mode : Stats -> Mode) (_resolver : IDResolver)
    (activeTextEditor : option vscode.TextEditor) (this : DiredProvider) :
  match activeTextEditor with
  | None => True
  | Some at_ => vscode.line (vscode.active (vscode.selection at_)) = 0
  end ->
  getFile activeTextEditor = Null /\
  delete fs unlinkSync path_join new_Mode _resolver activeTextEditor this
  = Finished (fs, this, []).
Proof.
  intros H. assert (getFile activeTextEditor = Null) as Hnull.
  { destruct activeTextEditor as [at_|]; [|reflexivity].
    unfold getFile. rewrite H. reflexivity. }
  split; [exact Hnull|]. unfold delete. rewrite Hnull. reflexivity.
Qed.


Lemma nothing_under_the_cursor_on_the_header_witness :
  delete sample_fs sample_unlinkSync sample_path_join sample_Mode sample_resolver
    (Some (showing "/tmp" [sample_file_line] 0)) sample_provider
  = Finished (sample_fs, sample_provider, []).
Proof.
  apply (nothing_under_the_cursor_on_the_header sample_fs sample_unlinkSync
           sample_path_join sample_Mode sample_resolver
           (Some (showing "/tmp" [sample_file_line] 0)) sample_provider).
  reflexivity.
Defined.

(** ** Going up: the line of the directory left *)

Lemma startsWith_prefix (s t : string) :
  JS.startsWith s t = true -> exists r, s = t ++ r.
Proof.
  revert s; induction t as [|b t IH]; intros s H.
  - exists s. reflexivity.
  - destruct s as [|a s]; [discriminate|]. simpl in H.
    apply andb_true_iff in H. destruct H as [Hab H].
    apply Ascii.eqb_eq in Hab. subst b.
    destruct (IH s H) as (r & ->). exists r. reflexivity.
Qed.

Lemma startsWith_append (t r : string) : JS.startsWith (t ++ r) t = true.
Proof.
  induction t as [|b t IH]; [destruct r; reflexivity|].
  simpl. rewrite Ascii.eqb_refl. exact IH.
Qed.

Lemma occurs_append (c : ascii) (a b : string) :
  occurs c (a ++ b) = occurs c a || occurs c b.
Proof.
  induction a as [|x a IH]; [reflexivity|].
  simpl. rewrite IH, orb_assoc. reflexivity.
Qed.

(** If [X ++ y] has [c] at a position that lies inside [X], then [c]
    occurs in [X]. *)
Lemma append_eq_occurs (t X y r : string) (c : ascii) :
  X ++ y = t ++ String c r -> length t < length X -> occurs c X = true.
Proof.
  revert X; induction t as [|b t IH]; intros X Heq Hlen.
  - destruct X as [|x X]; [simpl in Hlen; lia|].
    simpl in Heq. injection Heq as -> _. simpl. rewrite Ascii.eqb_refl. reflexivity.
  - destruct X as [|x X]; [simpl in Hlen; lia|].
    simpl in Heq. injection Heq as _ Heq. simpl in Hlen.
    simpl. rewrite (IH X Heq) by lia. apply orb_true_r.
Qed.

(** [indexOf] finds a target at the end of a text when the last character
    of the target occurs nowhere before. *)
Lemma indexOf_at_the_end (pre t : string) (c : ascii) :
  occurs c (pre ++ t) = false ->
  JS.indexOf (pre ++ t ++ String c "") (t ++ String c "") = Some (length pre).
Proof.
  induction pre as [|a pre IH]; intros H.
  - simpl append. destruct (t ++ String c "") eqn:Ht; [destruct t; discriminate|].
    rewrite <- Ht. unfold JS.indexOf.
    destruct (t ++ String c "") eqn:Ht' at 1; [destruct t; discriminate|].
    rewrite <- Ht'. rewrite <- (append_nil_r (t ++ String c "")) at 1.
    rewrite startsWith_append. reflexivity.
  - simpl in H. apply orb_false_iff in H. destruct H as [Ha H].
    cbn [append JS.indexOf length].
    destruct (JS.startsWith (String a (pre ++ t ++ String c "")) (t ++ String c "")) eqn:Hs.
    + exfalso. apply startsWith_prefix in Hs. destruct Hs as (r & Hr).
      rewrite append_assoc in Hr. cbn [append] in Hr.
      assert (occurs c (String a (pre ++ t)) = true) as Hocc.
      { apply (append_eq_occurs t (String a (pre ++ t)) (String c "") r c).
        - cbn [append]. rewrite append_assoc. exact Hr.
        - simpl. rewrite length_append. lia. }
      simpl in Hocc. rewrite Ha, H in Hocc. discriminate.
    + rewrite IH by exact H. reflexivity.
Qed.

Lemma endsWith_append (pre t : string) : JS.endsWith (pre ++ t) t = true.
Proof.
  unfold JS.endsWith. rewrite length_append.
  replace (length pre + length t - length t) with (length pre) by lia.
  rewrite drop_append by lia. rewrite Nat.sub_diag. simpl.
  rewrite String.eqb_refl.
  replace (length t <=? length pre + length t)%nat with true
    by (symmetry; apply Nat.leb_le; lia).
  reflexivity.
Qed.

Lemma drop_within (a b : string) (n : nat) :
  n <= length a -> JS.drop n (a ++ b) = JS.drop n a ++ b.
Proof.
  revert n; induction a as [|x a IH]; intros [|n] H; simpl in *; try reflexivity; try lia.
  apply IH. lia.
Qed.

Lemma last_character (a b : string) (c c' : ascii) :
  a ++ String c "" = b ++ String c' "" -> c = c'.
Proof.
  revert b; induction a as [|x a IH]; intros [|y b] H; simpl in H.
  - congruence.
  - injection H as _ H. destruct b; discriminate.
  - injection H as _ H. destruct a; discriminate.
  - injection H as _ H. apply (IH b H).
Qed.

(** A text does not end with a target whose last character is another. *)
Lemma endsWith_other_end (s t : string) (c c' : ascii) :
  c <> c' -> JS.endsWith (s ++ String c "") (t ++ String c' "") = false.
Proof.
  intros Hc. unfold JS.endsWith. rewrite !length_append. simpl length.
  destruct (Nat.leb_spec (length t + 1) (length s + 1)) as [L|L]; [|reflexivity].
  cbn [andb]. apply String.eqb_neq. intros H.
  rewrite drop_within in H by lia.
  apply last_character in H. contradiction.
Qed.

(** The search of [openUpDir] stops on the first line that ends with the
    target. *)
Lemma openUpDir_search_first (target : string) (buffers : list string) :
  forall (index k : nat) (buffer : string),
  nth_error buffers k = Some buffer ->
  JS.endsWith buffer target = true ->
  (forall j b, j < k -> nth_error buffers j = Some b -> JS.endsWith b target = false) ->
  openUpDir_search target index buffers
  = Some (let pos := match JS.indexOf buffer target with
                     | Some i => i + 1
                     | None => 0
                     end in
          vscode.mkRange (index + k) pos (index + k) pos).
Proof.
  induction buffers as [|b rest IH]; intros index k buffer Hk Hends Hfirst.
  - destruct k; discriminate.
  - destruct k as [|k].
    + injection Hk as ->. cbn [openUpDir_search]. rewrite Hends, Nat.add_0_r. reflexivity.
    + cbn [openUpDir_search]. rewrite (Hfirst 0 b) by (try lia; reflexivity).
      rewrite (IH (S index) k buffer Hk Hends).
      * replace (S index + k) with (index + S k) by lia. reflexivity.
      * intros j b' Hj Hb'. apply (Hfirst (S j) b'); [lia | exact Hb'].
Qed.

Lemma occurs_take (c : ascii) (s : string) (n : nat) :
  occurs c s = false -> occurs c (JS.take n s) = false.
Proof.
  revert n; induction s as [|x s IH]; intros [|n] H; simpl in *; try reflexivity.
  apply orb_false_iff in H. destruct H as [Hx H]. rewrite Hx, IH by exact H. reflexivity.
Qed.

Lemma occurs_replicate (c d : ascii) (n : nat) :
  Ascii.eqb d c = false -> occurs c (replicate n d) = false.
Proof.
  intros H. induction n as [|n IH]; [reflexivity|]. simpl. rewrite H, IH. reflexivity.
Qed.

Lemma occurs_column8 (s : string) : occurs "/" s = false -> occurs "/" (column8 s) = false.
Proof.
  intros H. unfold column8. destruct (_ <=? 8)%nat.
  - rewrite occurs_append, H, occurs_replicate by reflexivity. reflexivity.
  - apply occurs_take. exact H.
Qed.

Lemma occurs_digits (s : string) : all_digits s -> occurs "/" s = false.
Proof.
  induction s as [|x s IH]; intros H; [reflexivity|].
  destruct H as [Hx H]. simpl. rewrite IH by exact H.
  destruct (Ascii.eqb_spec x "/") as [->|_]; [exfalso; apply Hx; reflexivity | reflexivity].
Qed.

Lemma occurs_natural (lo hi : Z) (x : JS.number) (w : nat) (c : ascii) :
  int_between lo hi x -> (0 <= lo)%Z -> Ascii.eqb c "/" = false ->
  occurs "/" (right_aligned w c (JS.toString x)) = false.
Proof.
  intros (z & -> & Hz) Hlo Hc. unfold right_aligned.
  rewrite occurs_append, occurs_replicate by exact Hc.
  rewrite toString_nonneg by lia. apply occurs_digits, all_digits_digits.
Qed.

Lemma columns_before_name (se m u g sz mo d h mi name : string) :
  columns se m u g sz mo d h mi name = before_name se m u g sz mo d h mi ++ " " ++ name.
Proof. unfold columns, before_name. rewrite !append_assoc. reflexivity. Qed.

(** The line of a valid directory without slashes in its fields is 51
    columns without a slash, a space, the name and a slash. *)
Lemma line_text_of_directory (E : FileItem) :
  valid E -> size_fits E -> slash_free E -> _isDirectory E = true ->
  exists pre,
    line_text E = pre ++ String " " (_filename E) ++ "/" /\
    length pre = 51 /\
    occurs "/" (pre ++ String " " (_filename E)) = false.
Proof.
  intros [_ [_ Hm] _ _ (Hmo & Hd & Hh & Hmi)] (z & Hz & Hsize) (Sm & Su & Sg & Sn) Hdir.
  destruct (natural_numeral z 8 ltac:(discriminate) Hsize) as (Lsz & _).
  destruct (int_between_numeral 1 12 _ 2 Hmo) as (Lmo & _); try lia; try discriminate.
  destruct (int_between_numeral 1 31 _ 2 Hd) as (Ld & _); try lia; try discriminate.
  destruct (int_between_numeral 0 23 _ 2 Hh) as (Lh & _); try lia; try discriminate.
  destruct (int_between_numeral 0 59 _ 2 Hmi) as (Lmi & _); try lia; try discriminate.
  rewrite <- Hz in Lsz.
  eexists. unfold line_text, rendered_name. rewrite Hdir, columns_before_name.
  split; [|split].
  - reflexivity.
  - unfold before_name. rewrite !length_append, length_marker, Hm, !length_column8,
      !length_right_aligned by assumption. reflexivity.
  - unfold before_name. rewrite !occurs_append. cbn [occurs Ascii.eqb Bool.eqb orb].
    rewrite Sm, !occurs_column8 by assumption.
    assert (int_between 0 (10 ^ 8) (_size E)) as Hsz
      by (exists z; split; [exact Hz | lia]).
    rewrite (occurs_natural 0 (10 ^ 8) (_size E) 8 " ") by
      (try reflexivity; try lia; assumption).
    rewrite (occurs_natural 1 12 (_month E) 2 "0") by (try reflexivity; try lia; assumption).
    rewrite (occurs_natural 1 31 (_day E) 2 "0") by (try reflexivity; try lia; assumption).
    rewrite (occurs_natural 0 23 (_hour E) 2 "0") by (try reflexivity; try lia; assumption).
    rewrite (occurs_natural 0 59 (_min E) 2 "0") by (try reflexivity; try lia; assumption).
    rewrite Sn. destruct (_selected E); reflexivity.
Qed.

(** X19. Going up puts the cursor on the directory left.  When the buffer
    built for [path] shows, as its first line ending with a space, the name
    [basename] and a slash, the line of a valid directory of that name
    whose size fits and whose mode, owner, group and name hold no slash,
    [openUpDir] gives to [showTextDocument] the empty range at column 52
    of that line, where the name begins. *)
Theorem openUpDir_finds_the_directory_left
    (fs : FileSystem) (path_join : string -> string -> string)
    (new_Mode : Stats -> Mode) (_resolver : IDResolver)
    (this this' : DiredProvider) (log : list effect)
    (path basename : string) (files : list FileItem) (k : nat) (E : FileItem) :
  createBuffer fs path_join new_Mode _resolver this path
  = Returned ((path ++ ":") :: map line_text files) (this', log) ->
  nth_error files k = Some E ->
  valid E -> size_fits E -> slash_free E ->
  _isDirectory E = true -> _filename E = basename ->
  (forall j E', j < k -> nth_error files j = Some E' ->
     JS.endsWith (line_text E') (" " ++ basename ++ "/") = false) ->
  openUpDir fs path_join new_Mode _resolver this path basename
  = Returned (vscode.mkRange (S k) 52 (S k) 52) (this', log).
Proof.
  intros Hrun HE Hv Hs Hfree Hdir Hname Hfirst.
  destruct (createBuffer_returns _ _ _ _ _ _ _ _ Hrun) as (files' & _ & Hthis).
  cbn [fst] in Hthis. unfold openUpDir. rewrite Hrun, Hthis. cbn [_buffers set_buffers].
  destruct (line_text_of_directory E Hv Hs Hfree Hdir) as (pre & Hline & Hlen & Hocc).
  rewrite Hname in Hline, Hocc.
  rewrite (openUpDir_search_first _ _ 0 (S k) (line_text E)).
  - cbn zeta. rewrite Hline.
    change (" " ++ basename ++ "/") with (String " " basename ++ String "/" "").
    rewrite indexOf_at_the_end by exact Hocc. rewrite Hlen. reflexivity.
  - cbn [nth_error]. rewrite nth_error_map, HE. reflexivity.
  - rewrite Hline. apply endsWith_append.
  - intros [|j] b Hj Hb.
    + injection Hb as <-.
      change (" " ++ basename ++ "/") with (String " " basename ++ String "/" "").
      apply endsWith_other_end. discriminate.
    + cbn [nth_error] in Hb. rewrite nth_error_map in Hb.
      destruct (nth_error files j) as [E'|] eqn:HE'; [|discriminate].
      injection Hb as <-. apply (Hfirst j E'); [lia | exact HE'].
Qed.

Lemma openUpDir_finds_the_directory_left_witness :
  exists this' log,
    openUpDir sample_fs_home sample_path_join sample_Mode sample_resolver
      sample_provider "/home" "sub"
    = Returned (vscode.mkRange 2 52 2 52) (this', log).
Proof.
  eexists _, _.
  apply (openUpDir_finds_the_directory_left sample_fs_home sample_path_join sample_Mode
           sample_resolver sample_provider _ _ "/home" "sub" sample_home_files 1
           (FileItem.create sample_Mode sample_resolver "/home" "sub" sample_directory_stats)).
  - reflexivity.
  - reflexivity.
  - constructor; repeat split; try discriminate; try reflexivity;
      eexists; (split; [reflexivity | lia]).
  - exists 4096%Z. split; [reflexivity | lia].
  - repeat split.
  - reflexivity.
  - reflexivity.
  - intros j E' Hj HE'. assert (j = 0) as -> by lia.
    injection HE' as <-. reflexivity.
Defined.

(** ** A rebuilt buffer *)

Lemma readDir_returns_unselected
    (fs : FileSystem) (path_join : string -> string -> string)
    (new_Mode : Stats -> Mode) (_resolver : IDResolver)
    (this : DiredProvider) (dir : string) (files : list FileItem) (log : list effect) :
  readDir fs path_join new_Mode _resolver this dir = Returned files log ->
  Forall (fun f => _dirname f = dir /\ _selected f = false) files.
Proof.
  unfold readDir. destruct (readdirSync fs dir) as [err|names]; [discriminate|].
  intros H.
  apply (f_equal (fun r => match r with Returned a _ => a | _ => [] end)) in H.
  cbv beta iota zeta in H. rewrite <- H. apply readDir_items_created.
Qed.

(** X20. A rebuilt buffer holds no selection.  In every buffer that
    [createBuffer] returns, each line below the header begins with a space,
    so that it decodes to an entry that is not selected: the marks set by
    [selectFiles] do not survive a reload. *)
Theorem createBuffer_selects_nothing
    (fs : FileSystem) (path_join : string -> string -> string)
    (new_Mode : Stats -> Mode) (_resolver : IDResolver)
    (this : DiredProvider) (dir : string) (buffers : list string)
    (s : DiredProvider * list effect) (k : nat) (text : string) :
  createBuffer fs path_join new_Mode _resolver this dir = Returned buffers s ->
  1 <= k -> nth_error buffers k = Some text ->
  JS.substring text 0 1 = " " /\ _selected (parseLine dir text) = false.
Proof.
  intros Hrun Hk Htext.
  assert (exists files, buffers = (dir ++ ":") :: map line_text files /\
                        Forall (fun f => _selected f = false) files) as (files & -> & Hsel).
  { unfold createBuffer in Hrun.
    destruct (lstatSync fs dir) as [err|st]; [discriminate|].
    destruct (stats_isDirectory st).
    - destruct (readDir fs path_join new_Mode _resolver this dir) as [files log|err log|] eqn:Hr;
        [| |discriminate].
      + rewrite map_line_eq in Hrun. injection Hrun as <- _. exists files.
        split; [reflexivity|].
        apply readDir_returns_unselected in Hr.
        eapply Forall_impl; [|exact Hr]. intros f [_ H]. exact H.
      + rewrite map_line_eq in Hrun. injection Hrun as <- _. exists [].
        split; [reflexivity | constructor].
    - rewrite map_line_eq in Hrun. injection Hrun as <- _. exists [].
      split; [reflexivity | constructor]. }
  destruct k as [|k]; [lia|]. cbn [nth_error] in Htext.
  rewrite nth_error_map in Htext.
  destruct (nth_error files k) as [E|] eqn:HE; [|discriminate].
  injection Htext as <-.
  rewrite Forall_forall in Hsel. specialize (Hsel E (nth_error_In _ _ HE)).
  assert (JS.substring (line_text E) 0 1 = " ") as H0.
  { unfold line_text, columns. rewrite Hsel. apply substring_head. reflexivity. }
  split; [exact H0|].
  unfold parseLine. cbn [_selected]. rewrite H0. reflexivity.
Qed.

Lemma createBuffer_selects_nothing_witness :
  exists buffers s text,
    createBuffer sample_fs_home sample_path_join sample_Mode sample_resolver
      sample_provider "/home" = Returned buffers s /\
    nth_error buffers 2 = Some text /\
    JS.substring text 0 1 = " ".
Proof.
  eexists _, _, _. split; [reflexivity|]. split; [reflexivity|].
  eapply (createBuffer_selects_nothing sample_fs_home sample_path_join sample_Mode
            sample_resolver sample_provider "/home" _ _ 2 _ eq_refl);
    [lia | reflexivity].
Defined.
